(** * tensorflow/python/data/ops/dataset_ops.py

    A shallow embedding of the Python wrappers for Datasets and Iterators:
    the element schema (nested dtypes and shapes), the logical plan of
    dataset transformations, the iterator re-initialisation check and the
    registry of Python generators behind [Dataset.from_generator]. *)

From Stdlib Require Import ZArith Lia.
From stdpp Require Import base option list gmap strings.

Local Open Scope Z_scope.

(** ** Python exceptions and the error monad *)

(** The exception classes raised in dataset_ops.py, together with the two
    kinds that only its collaborators raise: [StructureMismatch] (by
    [nest]) and [InvalidArgument] (by the dataset kernels). *)
Inductive exn :=
| TypeError
| ValueError
| StopIteration
| KeyError
| StructureMismatch
| InvalidArgument.

#[global] Instance exn_eq_dec : EqDecision exn.
Proof. solve_decision. Defined.

Inductive result (A : Type) :=
| Ok (a : A)
| Raise (e : exn).
Arguments Ok {A} a.
Arguments Raise {A} e.

#[global] Instance result_bind : MBind result :=
  fun A B (k : A -> result B) (r : result A) =>
    match r with
    | Ok a => k a
    | Raise e => Raise e
    end.

#[global] Instance result_ret : MRet result := @Ok.

Definition is_Ok {A} (r : result A) : Prop := exists a, r = Ok a.
Definition raises {A} (r : result A) : Prop := exists e, r = Raise e.

(** Sequencing a list of computations, left to right. *)
Fixpoint sequence {A} (l : list (result A)) : result (list A) :=
  match l with
  | [] => Ok []
  | r :: rs => x ← r; xs ← sequence rs; Ok (x :: xs)
  end.

(** ** Nested structures *)

(** Modelled from the spec: tensorflow.python.data.util.nest is not part of
    the sources.  A nested structure is "a tuple/record of recursively
    nested" structures with values at the leaves; [flatten] is the
    "deterministic pre-order leaf listing", [pack_sequence_as] the "inverse
    of flatten against a structural template", and two structures are the
    same when they have "identical nesting structure". *)
Module nest.

Inductive container :=
| CTuple
| CDict (keys : list string).

#[global] Instance container_eq_dec : EqDecision container.
Proof. solve_decision. Defined.

#[local] Unset Elimination Schemes.
Inductive t (A : Type) :=
| Leaf (a : A)
| Node (c : container) (children : list (t A)).
#[local] Set Elimination Schemes.
Arguments Leaf {A} a.
Arguments Node {A} c children.

Section Induction.
Context {A : Type} (P : t A -> Prop).
Hypothesis HLeaf : forall a, P (Leaf a).
Hypothesis HNode : forall c ch, Forall P ch -> P (Node c ch).

Fixpoint t_ind' (s : t A) : P s :=
  match s with
  | Leaf a => HLeaf a
  | Node c ch =>
      HNode c ch
        ((fix go (l : list (t A)) : Forall P l :=
            match l with
            | [] => Forall_nil_2 P
            | x :: r => Forall_cons_2 P x r (t_ind' x) (go r)
            end) ch)
  end.
End Induction.

Definition is_sequence {A} (s : t A) : bool :=
  match s with
  | Leaf _ => false
  | Node _ _ => true
  end.

Fixpoint flatten {A} (s : t A) : list A :=
  match s with
  | Leaf a => [a]
  | Node _ ch => concat (List.map flatten ch)
  end.

Definition map_structure {A B} (f : A -> B) : t A -> t B :=
  fix go (s : t A) : t B :=
    match s with
    | Leaf a => Leaf (f a)
    | Node c ch => Node c (List.map go ch)
    end.

(** A structure whose leaves are structures is one structure. *)
Definition join {A} : t (t A) -> t A :=
  fix go (s : t (t A)) : t A :=
    match s with
    | Leaf a => a
    | Node c ch => Node c (List.map go ch)
    end.

Fixpoint same_structure {A B} (s1 : t A) (s2 : t B) : bool :=
  match s1, s2 with
  | Leaf _, Leaf _ => true
  | Node c1 ch1, Node c2 ch2 =>
      bool_decide (c1 = c2) &&
      (fix go (l1 : list (t A)) (l2 : list (t B)) : bool :=
         match l1, l2 with
         | [], [] => true
         | x1 :: r1, x2 :: r2 => same_structure x1 x2 && go r1 r2
         | _, _ => false
         end) ch1 ch2
  | _, _ => false
  end.

Definition assert_same_structure {A B} (s1 : t A) (s2 : t B) : result unit :=
  if same_structure s1 s2 then Ok tt else Raise StructureMismatch.

(** Rebuilds [s] from the front of [l]; returns what is left of [l]. *)
Fixpoint pack_from {A B} (s : t B) (l : list A) : option (t A * list A) :=
  match s with
  | Leaf _ =>
      match l with
      | x :: r => Some (Leaf x, r)
      | [] => None
      end
  | Node c ch =>
      match
        (fix go (ch : list (t B)) (l : list A) : option (list (t A) * list A) :=
           match ch with
           | [] => Some ([], l)
           | s1 :: rest =>
               match pack_from s1 l with
               | Some (p1, l1) =>
                   match go rest l1 with
                   | Some (ps, l2) => Some (p1 :: ps, l2)
                   | None => None
                   end
               | None => None
               end
           end) ch l
      with
      | Some (ps, r) => Some (Node c ps, r)
      | None => None
      end
  end.

Definition pack_sequence_as {A B} (structure : t B) (flat_sequence : list A)
  : result (t A) :=
  if bool_decide (length (flatten structure) = length flat_sequence) then
    match pack_from structure flat_sequence with
    | Some (p, _) => Ok p
    | None => Raise ValueError
    end
  else Raise ValueError.

(** [flatten_up_to shallow input]: the parts of [input] that sit where
    [shallow] has its leaves.  [input] may be deeper than [shallow], but
    must agree with it down to its leaves. *)
Fixpoint flatten_up_to {A B} (shallow : t B) (input : t A) : result (list (t A)) :=
  match shallow with
  | Leaf _ => Ok [input]
  | Node c ch =>
      match input with
      | Leaf _ => Raise StructureMismatch
      | Node c' ch' =>
          if bool_decide (c = c') then
            (fix go (l1 : list (t B)) (l2 : list (t A)) : result (list (t A)) :=
               match l1, l2 with
               | [], [] => Ok []
               | s1 :: r1, s2 :: r2 =>
                   xs ← flatten_up_to s1 s2; ys ← go r1 r2; Ok (xs ++ ys)
               | _, _ => Raise StructureMismatch
               end) ch ch'
          else Raise StructureMismatch
      end
  end.

(** [func] on the parts of [input] that [flatten_up_to] finds, packed
    as [shallow]. *)
Definition map_structure_up_to {A B C} (shallow : t B)
    (func : t A -> result C) (input : t A) : result (t C) :=
  parts ← flatten_up_to shallow input;
  results ← sequence (func <$> parts);
  pack_sequence_as shallow results.

(** [map_structure] for a function that can raise: leaves are visited in
    [flatten] order and the first exception wins. *)
Definition mapM {A B} (f : A -> result B) : t A -> result (t B) :=
  fix go (s : t A) : result (t B) :=
    match s with
    | Leaf a => b ← f a; Ok (Leaf b)
    | Node c ch =>
        ch' ← (fix gol (l : list (t A)) : result (list (t B)) :=
                 match l with
                 | [] => Ok []
                 | x :: r => y ← go x; ys ← gol r; Ok (y :: ys)
                 end) ch;
        Ok (Node c ch')
    end.

End nest.

Abbreviation Leaf := nest.Leaf.
Abbreviation Node := nest.Node.
Abbreviation CTuple := nest.CTuple.
Abbreviation CDict := nest.CDict.

(** ** Element types and shapes *)

Module dtypes.
Inductive DType :=
| int32
| int64
| float32
| float64
| bool
| string.

#[global] Instance DType_eq_dec : EqDecision DType.
Proof. solve_decision. Defined.
End dtypes.

Abbreviation DType := dtypes.DType.

(** Modelled from the spec: tensorflow.python.framework.tensor_shape is not
    part of the sources.  A shape is "a sequence of dimensions, each either
    a concrete non-negative integer or unknown"; [TensorShape(None)], the
    "unconstrained shape" of [Iterator.from_structure], has no known rank.
    Two shapes are compatible when they have the "same rank" and "each
    dimension pair is equal or at least one side unknown". *)
Module tensor_shape.

(** [None] is the unknown dimension. *)
Abbreviation Dimension := (option nat).

(** [None] is the shape of unknown rank. *)
Abbreviation TensorShape := (option (list Dimension)).

Definition unknown_shape : TensorShape := None.
Definition scalar : TensorShape := Some [].
Definition vector (length : Dimension) : TensorShape := Some [length].

(** The shape of a concrete array: every dimension is known. *)
Definition as_shape (dims : list nat) : TensorShape := Some (Some <$> dims).

Definition dim_is_compatible_with (d1 d2 : Dimension) : Datatypes.bool :=
  match d1, d2 with
  | Some a, Some b => bool_decide (a = b)
  | _, _ => true
  end.

Fixpoint dims_compatible (l1 l2 : list Dimension) : Datatypes.bool :=
  match l1, l2 with
  | [], [] => true
  | d1 :: r1, d2 :: r2 => dim_is_compatible_with d1 d2 && dims_compatible r1 r2
  | _, _ => false
  end.

Definition is_compatible_with (s1 s2 : TensorShape) : Datatypes.bool :=
  match s1, s2 with
  | Some l1, Some l2 => dims_compatible l1 l2
  | _, _ => true
  end.

(** [merge_shape]: "per-dimension: equal -> keep, one unknown -> other,
    both-known-unequal -> fails". *)
Definition dim_merge_with (d1 d2 : Dimension) : result Dimension :=
  match d1, d2 with
  | Some a, Some b => if bool_decide (a = b) then Ok (Some a) else Raise ValueError
  | Some a, None => Ok (Some a)
  | None, d => Ok d
  end.

Fixpoint dims_merge (l1 l2 : list Dimension) : result (list Dimension) :=
  match l1, l2 with
  | [], [] => Ok []
  | d1 :: r1, d2 :: r2 =>
      d ← dim_merge_with d1 d2; r ← dims_merge r1 r2; Ok (d :: r)
  | _, _ => Raise ValueError
  end.

Definition merge_with (s1 s2 : TensorShape) : result TensorShape :=
  match s1, s2 with
  | Some l1, Some l2 => l ← dims_merge l1 l2; Ok (Some l)
  | Some l1, None => Ok (Some l1)
  | None, s => Ok s
  end.

(** [most_specific_compatible_shape], the shape of a leaf of
    [ConcatenateDataset]: an element of the concatenation comes from
    either input, so the result has to describe the elements of both.  A dimension is kept only where both sides know it and
    agree; it is unknown where they conflict ("widening to unknown on
    conflict") and also where either side does not know it.  The rank is
    unknown when the ranks differ or either rank is unknown. *)
Definition dim_most_specific (d1 d2 : Dimension) : Dimension :=
  match d1, d2 with
  | Some a, Some b => if bool_decide (a = b) then Some a else None
  | _, _ => None
  end.

Definition most_specific_compatible_shape (s1 s2 : TensorShape) : TensorShape :=
  match s1, s2 with
  | Some l1, Some l2 =>
      if bool_decide (length l1 = length l2)
      then Some (zip_with dim_most_specific l1 l2)
      else unknown_shape
  | _, _ => unknown_shape
  end.

(** [s1.concatenate(s2)]: the dimensions of [s1] followed by those of
    [s2]; nothing is known of the result when either rank is unknown. *)
Definition concatenate (s1 s2 : TensorShape) : TensorShape :=
  match s1, s2 with
  | Some l1, Some l2 => Some (l1 ++ l2)
  | _, _ => unknown_shape
  end.

End tensor_shape.

Abbreviation Dimension := tensor_shape.Dimension.
Abbreviation TensorShape := tensor_shape.TensorShape.

(** A symbolic tensor of the graph: what is known of it before it runs. *)
Record Tensor := mkTensor {
  dtype : DType;
  shape : TensorShape;
}.

(** [Tensor.set_shape]: refines the static shape, and raises [ValueError]
    when the new shape contradicts what is already known. *)
Definition set_shape (arg : Tensor) (s : TensorShape) : result Tensor :=
  merged ← tensor_shape.merge_with (shape arg) s;
  Ok {| dtype := dtype arg; shape := merged |}.

(** [for arg, shape in zip(args, shapes): arg.set_shape(shape)]: the
    arguments are updated in place, pairwise, as far as both lists go. *)
Fixpoint set_shapes (args : list Tensor) (shapes : list TensorShape)
  : result (list Tensor) :=
  match args, shapes with
  | arg :: args', s :: shapes' =>
      arg' ← set_shape arg s; rest ← set_shapes args' shapes'; Ok (arg' :: rest)
  | _, _ => Ok args
  end.

(** A scalar integer argument of a dataset constructor
    ([ops.convert_to_tensor(x, dtype=dtypes.int64)]).  [Static v] is a
    Python or NumPy integer or a constant tensor: [constant_value] recovers
    [v] while the graph is built.  [Dynamic v] is a tensor (a placeholder,
    say) whose value [v] only exists when the graph runs. *)
Inductive scalar_arg :=
| Static (v : Z)
| Dynamic (v : Z).

#[global] Instance scalar_arg_eq_dec : EqDecision scalar_arg.
Proof. solve_decision. Defined.

Module tensor_util.
Definition constant_value (t : scalar_arg) : option Z :=
  match t with
  | Static v => Some v
  | Dynamic _ => None
  end.
End tensor_util.

Definition run_value (t : scalar_arg) : Z :=
  match t with
  | Static v => v
  | Dynamic v => v
  end.

(** The value of a tensor when the graph runs. *)
#[local] Unset Elimination Schemes.
Inductive value :=
| IntV (z : Z)
| BoolV (b : Datatypes.bool)
| StrV (s : String.string)
| Stacked (rows : list value).
#[local] Set Elimination Schemes.

(** An element of a dataset: a nested structure of tensors. *)
Abbreviation element := (nest.t value).

(** [_should_unpack_args]: [type(args) is tuple]. *)
Definition _should_unpack_args {A} (args : nest.t A) : Datatypes.bool :=
  match args with
  | Node CTuple _ => true
  | _ => false
  end.

(** A tuple is spread over the positional arguments of [f]; anything else
    is passed as its single argument. *)
Definition call_unpacked {A R} (f : list (nest.t A) -> R) (nested_args : nest.t A) : R :=
  match nested_args with
  | Node CTuple children => f children
  | _ => f [nested_args]
  end.

(** A user function given to [Dataset.map]: [trace] is the one call that
    builds its graph, from symbolic tensors to symbolic tensors; [call] is
    what that graph computes on an element. *)
Record py_function := {
  trace : list (nest.t Tensor) -> result (nest.t Tensor);
  call : list element -> result element;
}.

(** ** The logical plan *)

(** The dataset classes as one datatype; each constructor holds the
    attributes that the class's [__init__] stores.  [Source] stands for any
    dataset of a class outside this fragment (tensors, text lines, records,
    ...): it is given by its schema and by what iterating over it yields.
    The call that [__init__] makes through [function.Defun] to trace a user
    function is not part of a constructor: it is [tf_map_func], which the
    properties of a [MapDataset] read, and [tf_predicate] for a
    [FilterDataset]. *)
#[local] Unset Elimination Schemes.
Inductive Dataset :=
| Source (types : nest.t DType) (shapes : nest.t TensorShape)
         (contents : result (list element))
| RangeDataset (_start _stop _step : scalar_arg)
| ZipDataset (_datasets : nest.t Dataset)
| ConcatenateDataset (_input_dataset _dataset_to_concatenate : Dataset)
| BatchDataset (_input_dataset : Dataset) (_batch_size : scalar_arg)
| MapDataset (_input_dataset : Dataset) (_map_func : py_function)
| ParallelMapDataset (_input_dataset : Dataset) (_map_func : py_function)
                     (_num_parallel_calls : scalar_arg)
| FilterDataset (_input_dataset : Dataset)
                (_predicate : list element -> result element)
| PrefetchDataset (_input_dataset : Dataset) (_buffer_size : scalar_arg).
#[local] Set Elimination Schemes.

(** The [function.Defun] decorator: the wrapped function is called once,
    on one fresh tensor per declared type. *)
Definition Defun {R} (input_types : list DType) (func : list Tensor -> R) : R :=
  func ((fun t => {| dtype := t; shape := tensor_shape.unknown_shape |}) <$> input_types).

(** [tf_map_func] of [MapDataset.__init__], up to the value that
    [map_func] returns. *)
Definition tf_map_func (input_types : nest.t DType) (input_shapes : nest.t TensorShape)
    (map_func : py_function) (args : list Tensor) : result (nest.t Tensor) :=
  args ← set_shapes args (nest.flatten input_shapes);
  nested_args ← nest.pack_sequence_as input_types args;
  call_unpacked (trace map_func) nested_args.

(** The [output_types] and [output_shapes] properties.  A property of a
    [MapDataset] reads what the traced call of [tf_map_func] has stored. *)
Fixpoint output_types (d : Dataset) : result (nest.t DType) :=
  match d with
  | Source types _ _ => Ok types
  | RangeDataset _ _ _ => Ok (Leaf dtypes.int64)
  | ZipDataset datasets =>
      packed ← nest.mapM output_types datasets; Ok (nest.join packed)
  | ConcatenateDataset input_dataset _ => output_types input_dataset
  | BatchDataset input_dataset _ => output_types input_dataset
  | MapDataset input_dataset map_func
  | ParallelMapDataset input_dataset map_func _ =>
      input_types ← output_types input_dataset;
      input_shapes ← output_shapes input_dataset;
      ret ← Defun (nest.flatten input_types)
                  (tf_map_func input_types input_shapes map_func);
      nest.pack_sequence_as ret (dtype <$> nest.flatten ret)
  | FilterDataset input_dataset _ => output_types input_dataset
  | PrefetchDataset input_dataset _ => output_types input_dataset
  end
with output_shapes (d : Dataset) : result (nest.t TensorShape) :=
  match d with
  | Source _ shapes _ => Ok shapes
  | RangeDataset _ _ _ => Ok (Leaf tensor_shape.scalar)
  | ZipDataset datasets =>
      packed ← nest.mapM output_shapes datasets; Ok (nest.join packed)
  | ConcatenateDataset input_dataset dataset_to_concatenate =>
      shapes1 ← output_shapes input_dataset;
      shapes2 ← output_shapes dataset_to_concatenate;
      nest.pack_sequence_as shapes1
        (zip_with tensor_shape.most_specific_compatible_shape
           (nest.flatten shapes1) (nest.flatten shapes2))
  | BatchDataset input_dataset _ =>
      input_shapes ← output_shapes input_dataset;
      nest.pack_sequence_as input_shapes
        ((fun s => tensor_shape.concatenate (tensor_shape.vector None) s)
           <$> nest.flatten input_shapes)
  | MapDataset input_dataset map_func
  | ParallelMapDataset input_dataset map_func _ =>
      input_types ← output_types input_dataset;
      input_shapes ← output_shapes input_dataset;
      ret ← Defun (nest.flatten input_types)
                  (tf_map_func input_types input_shapes map_func);
      nest.pack_sequence_as ret (shape <$> nest.flatten ret)
  | FilterDataset input_dataset _ => output_shapes input_dataset
  | PrefetchDataset input_dataset _ => output_shapes input_dataset
  end.

(** A [for] loop whose body can raise. *)
Fixpoint for_each {A} (l : list A) (body : A -> result unit) : result unit :=
  match l with
  | [] => Ok tt
  | x :: r => body x;; for_each r body
  end.

(** *** Constructors that validate *)

Definition _build_tensor (int64_value : Z) : scalar_arg := Static int64_value.

(** [RangeDataset.__init__], that is [_parse_args]. *)
Definition _parse_args (args : list scalar_arg) : result Dataset :=
  match args with
  | [a0] => Ok (RangeDataset (_build_tensor 0) a0 (_build_tensor 1))
  | [a0; a1] => Ok (RangeDataset a0 a1 (_build_tensor 1))
  | [a0; a1; a2] => Ok (RangeDataset a0 a1 a2)
  | _ => Raise ValueError
  end.

(** [ConcatenateDataset.__init__]. *)
Definition ConcatenateDataset_init (input_dataset dataset_to_concatenate : Dataset)
  : result Dataset :=
  types1 ← output_types input_dataset;
  types2 ← output_types dataset_to_concatenate;
  nest.assert_same_structure types1 types2;;
  for_each (zip (nest.flatten types1) (nest.flatten types2))
    (fun '(a, b) => if bool_decide (a ≠ b) then Raise TypeError else Ok tt);;
  Ok (ConcatenateDataset input_dataset dataset_to_concatenate).

(** *** The methods of [Dataset] *)

Definition Dataset_range (args : list scalar_arg) : result Dataset :=
  _parse_args args.

Definition Dataset_zip (datasets : nest.t Dataset) : Dataset :=
  ZipDataset datasets.

Definition Dataset_concatenate (self dataset : Dataset) : result Dataset :=
  ConcatenateDataset_init self dataset.

Definition Dataset_prefetch (self : Dataset) (buffer_size : scalar_arg) : Dataset :=
  PrefetchDataset self buffer_size.

(** [np.iinfo(dtypes.int64.as_numpy_dtype).max] *)
Definition max_value : Z := 2 ^ 63 - 1.

Definition _enumerate (self : Dataset) (start : Z) : result Dataset :=
  positions ← Dataset_range [Static start; Static max_value];
  Ok (Dataset_zip (Node CTuple [Leaf positions; Leaf self])).

Definition Dataset_batch (self : Dataset) (batch_size : scalar_arg) : Dataset :=
  BatchDataset self batch_size.

Definition Dataset_map (self : Dataset) (map_func : py_function)
    (num_threads output_buffer_size num_parallel_calls : option scalar_arg)
  : Dataset :=
  let ret :=
    match num_threads, num_parallel_calls with
    | None, None => MapDataset self map_func
    | None, Some n => ParallelMapDataset self map_func n
    | Some n, _ => ParallelMapDataset self map_func n
    end in
  match output_buffer_size with
  | Some b => Dataset_prefetch ret b
  | None => ret
  end.

Definition Dataset_filter (self : Dataset)
    (predicate : list element -> result element) : Dataset :=
  FilterDataset self predicate.

(** Modelled from the spec: tensorflow.python.ops.math_ops is not part of
    the sources; [shard] keeps "positions where position mod numShards ==
    index".  [mod_] is the floor modulus and a zero divisor is an error of
    the running graph. *)
Module math_ops.

Definition mod_ (x y : element) : result element :=
  match x, y with
  | Leaf (IntV a), Leaf (IntV b) =>
      if bool_decide (b = 0) then Raise InvalidArgument
      else Ok (Leaf (IntV (Z.modulo a b)))
  | _, _ => Raise TypeError
  end.

Definition equal (x y : element) : result element :=
  match x, y with
  | Leaf (IntV a), Leaf (IntV b) => Ok (Leaf (BoolV (bool_decide (a = b))))
  | _, _ => Raise TypeError
  end.

End math_ops.

(** A Python function of exactly two positional arguments that returns the
    second: [lambda _, elem: elem]. *)
Definition second_of_two {A} (args : list (nest.t A)) : result (nest.t A) :=
  match args with
  | [_; elem] => Ok elem
  | _ => Raise TypeError
  end.

(** [filter_fn] of [Dataset.shard]; it closes over the two tensors. *)
Definition filter_fn (num_shards index : scalar_arg) (args : list element)
  : result element :=
  match args with
  | [elem_index; _] =>
      mod_result ← math_ops.mod_ elem_index (Leaf (IntV (run_value num_shards)));
      math_ops.equal mod_result (Leaf (IntV (run_value index)))
  | _ => Raise TypeError
  end.

Definition Dataset_shard (self : Dataset) (num_shards index : scalar_arg)
  : result Dataset :=
  let num_shards_static := tensor_util.constant_value num_shards in
  let index_static := tensor_util.constant_value index in
  if match num_shards_static with
     | Some n => bool_decide (n < 1)
     | None => false
     end
  then Raise ValueError
  else if match index_static with
          | Some i => bool_decide (i < 0)
          | None => false
          end
  then Raise ValueError
  else if match index_static, num_shards_static with
          | Some i, Some n => bool_decide (i >= n)
          | _, _ => false
          end
  then Raise ValueError
  else
    enumerated ← _enumerate self 0;
    Ok (Dataset_map
          (Dataset_filter enumerated (filter_fn num_shards index))
          {| trace := second_of_two; call := second_of_two |}
          None None None).

(** ** What a dataset yields *)

(** Modelled from the spec: the kernels of gen_dataset_ops are not part of
    the sources.  Range follows "the same semantics as python's xrange" and
    rejects a zero step when it runs; Zip has the "length of the smallest"
    input; Filter keeps the elements whose predicate is true; Map applies
    its function to each element; Concatenate yields its first input and
    then its second; Batch combines consecutive elements, the last batch
    being smaller when the input runs out; Prefetch "does not reorder
    elements" and parallel Map "never reorders results". *)
Module kernels.

Definition range_length (start stop step : Z) : Z :=
  if bool_decide (0 < step) then Z.max 0 ((stop - start + step - 1) / step)
  else if bool_decide (step < 0) then Z.max 0 ((start - stop - step - 1) / (- step))
  else 0.

Definition range_values (start stop step : Z) : list Z :=
  (fun k => start + k * step) <$> seqZ 0 (range_length start stop step).

Definition min_length {A} (ls : list (list A)) : nat :=
  match ls with
  | [] => 0%nat
  | l :: rest => foldr (fun x m => Nat.min (length x) m) (length l) rest
  end.

Definition zip_elements (inputs : nest.t (list element)) : list element :=
  (fun i => nest.join
              (nest.map_structure
                 (fun l => default (Node CTuple []) (l !! i)) inputs))
    <$> seq 0 (min_length (nest.flatten inputs)).

Fixpoint filter_elements (predicate : list element -> result element)
    (xs : list element) : result (list element) :=
  match xs with
  | [] => Ok []
  | x :: rest =>
      keep ← call_unpacked predicate x;
      match keep with
      | Leaf (BoolV b) =>
          kept ← filter_elements predicate rest;
          Ok (if b then x :: kept else kept)
      | _ => Raise InvalidArgument
      end
  end.

Definition map_elements (map_func : list element -> result element)
    (xs : list element) : result (list element) :=
  sequence (call_unpacked map_func <$> xs).

Fixpoint chunks {A} (fuel n : nat) (xs : list A) : list (list A) :=
  match fuel, xs with
  | S fuel', _ :: _ => take n xs :: chunks fuel' n (drop n xs)
  | _, _ => []
  end.

Definition stack (es : list element) : result element :=
  match es with
  | [] => Raise InvalidArgument
  | e :: _ =>
      if forallb (nest.same_structure e) es then
        nest.pack_sequence_as e
          ((fun j => Stacked (omap (fun x => nest.flatten x !! j) es))
             <$> seq 0 (length (nest.flatten e)))
      else Raise InvalidArgument
  end.

Definition batch_elements (batch_size : Z) (xs : list element)
  : result (list element) :=
  if bool_decide (batch_size <= 0) then Raise InvalidArgument
  else sequence (stack <$> chunks (length xs) (Z.to_nat batch_size) xs).

End kernels.

Fixpoint elements (d : Dataset) : result (list element) :=
  match d with
  | Source _ _ contents => contents
  | RangeDataset start stop step =>
      if bool_decide (run_value step = 0) then Raise InvalidArgument
      else Ok ((fun i => Leaf (IntV i))
                 <$> kernels.range_values (run_value start) (run_value stop)
                                          (run_value step))
  | ZipDataset datasets =>
      inputs ← nest.mapM elements datasets; Ok (kernels.zip_elements inputs)
  | ConcatenateDataset input_dataset dataset_to_concatenate =>
      xs ← elements input_dataset;
      ys ← elements dataset_to_concatenate;
      Ok (xs ++ ys)
  | BatchDataset input_dataset batch_size =>
      xs ← elements input_dataset;
      kernels.batch_elements (run_value batch_size) xs
  | MapDataset input_dataset map_func
  | ParallelMapDataset input_dataset map_func _ =>
      xs ← elements input_dataset; kernels.map_elements (call map_func) xs
  | FilterDataset input_dataset predicate =>
      xs ← elements input_dataset; kernels.filter_elements predicate xs
  | PrefetchDataset input_dataset _ => elements input_dataset
  end.

(** What the spec says [shard] amounts to: "enumerating the upstream with a
    0-based position, keeping only positions where position mod numShards
    == index". *)
Definition shard_spec (num_shards index : Z) (xs : list element) : list element :=
  snd <$> filter (fun p => Z.modulo (fst p) num_shards = index)
                 (imap (fun i x => (Z.of_nat i, x)) xs).

(** ** Iterators *)

(** The iterator resource of [gen_dataset_ops.iterator] and the operation
    of [gen_dataset_ops.make_iterator], as the records of their arguments;
    the variant tensor of [make_dataset_resource] is the dataset itself. *)
Module gen_dataset_ops.

Record resource := iterator {
  container : String.string;
  shared_name : String.string;
  output_types : list DType;
  output_shapes : list TensorShape;
}.

Inductive Operation :=
| make_iterator (dataset : Dataset) (iterator_resource : resource).

End gen_dataset_ops.

Definition make_dataset_resource (self : Dataset) : Dataset := self.

Record Iterator := {
  _iterator_resource : gen_dataset_ops.resource;
  _initializer : option gen_dataset_ops.Operation;
  _output_types : nest.t DType;
  _output_shapes : nest.t TensorShape;
}.

(** [tensor_shape.as_shape] on what stands at the place of one shape: a
    shape is returned as it is, and the empty tuple [()] is the list of
    the dimensions of a scalar.  A tuple or dict of shapes is no list of
    dimensions. *)
Definition as_shape_arg (s : nest.t TensorShape) : result TensorShape :=
  match s with
  | Leaf sh => Ok sh
  | Node CTuple [] => Ok tensor_shape.scalar
  | Node _ _ => Raise TypeError
  end.

(** The shapes that go with declared types: unconstrained when omitted. *)
Definition declared_shapes (output_types : nest.t DType)
    (output_shapes : option (nest.t TensorShape)) : result (nest.t TensorShape) :=
  match output_shapes with
  | None => Ok (nest.map_structure (fun _ => tensor_shape.unknown_shape) output_types)
  | Some shapes => nest.map_structure_up_to output_types as_shape_arg shapes
  end.

Definition Iterator_from_dataset (dataset : Dataset) (shared_name : option String.string)
  : result Iterator :=
  let shared_name := default EmptyString shared_name in
  types ← output_types dataset;
  shapes ← output_shapes dataset;
  let iterator_resource :=
    gen_dataset_ops.iterator EmptyString shared_name
      (nest.flatten types) (nest.flatten shapes) in
  let initializer :=
    gen_dataset_ops.make_iterator (make_dataset_resource dataset) iterator_resource in
  Ok {| _iterator_resource := iterator_resource;
        _initializer := Some initializer;
        _output_types := types;
        _output_shapes := shapes |}.

Definition Iterator_from_structure (output_types : nest.t DType)
    (output_shapes : option (nest.t TensorShape))
    (shared_name : option String.string) : result Iterator :=
  output_shapes ← declared_shapes output_types output_shapes;
  nest.assert_same_structure output_types output_shapes;;
  let shared_name := default EmptyString shared_name in
  let iterator_resource :=
    gen_dataset_ops.iterator EmptyString shared_name
      (nest.flatten output_types) (nest.flatten output_shapes) in
  Ok {| _iterator_resource := iterator_resource;
        _initializer := None;
        _output_types := output_types;
        _output_shapes := output_shapes |}.

(** [Iterator.make_initializer]: the operation, or the exception, together
    with the iterator after the call. *)
Definition make_initializer (self : Iterator) (dataset : Dataset)
  : result gen_dataset_ops.Operation * Iterator :=
  (dataset_types ← output_types dataset;
   nest.assert_same_structure (_output_types self) dataset_types;;
   dataset_shapes ← output_shapes dataset;
   nest.assert_same_structure (_output_shapes self) dataset_shapes;;
   for_each (zip (nest.flatten (_output_types self)) (nest.flatten dataset_types))
     (fun '(iterator_dtype, dataset_dtype) =>
        if bool_decide (iterator_dtype ≠ dataset_dtype)
        then Raise TypeError else Ok tt);;
   for_each (zip (nest.flatten (_output_shapes self)) (nest.flatten dataset_shapes))
     (fun '(iterator_shape, dataset_shape) =>
        if negb (tensor_shape.is_compatible_with iterator_shape dataset_shape)
        then Raise TypeError else Ok tt);;
   Ok (gen_dataset_ops.make_iterator (make_dataset_resource dataset)
         (_iterator_resource self)),
   self).

(** What the claim on [make_initializer] calls a compatible schema. *)
Definition schema_compatible (iterator_types : nest.t DType)
    (iterator_shapes : nest.t TensorShape)
    (dataset_types : nest.t DType) (dataset_shapes : nest.t TensorShape) : Prop :=
  nest.same_structure iterator_types dataset_types = true ∧
  nest.same_structure iterator_shapes dataset_shapes = true ∧
  Forall2 eq (nest.flatten iterator_types) (nest.flatten dataset_types) ∧
  Forall2 (fun iterator_shape dataset_shape =>
             tensor_shape.is_compatible_with iterator_shape dataset_shape = true)
          (nest.flatten iterator_shapes) (nest.flatten dataset_shapes).

(** ** The predicate of a [FilterDataset] *)

Section FilterDataset.

(** What a Python predicate may return, and [ops.convert_to_tensor],
    which is not part of the sources. *)
Context {PyObj : Type}.
Variable convert_to_tensor : PyObj -> DType -> result Tensor.

(** [tf_predicate] up to the value that [predicate] returns. *)
Definition predicate_return (input_dataset : Dataset)
    (predicate : list (nest.t Tensor) -> result PyObj) (args : list Tensor)
  : result PyObj :=
  input_shapes ← output_shapes input_dataset;
  args ← set_shapes args (nest.flatten input_shapes);
  input_types ← output_types input_dataset;
  nested_args ← nest.pack_sequence_as input_types args;
  call_unpacked predicate nested_args.

Definition tf_predicate (input_dataset : Dataset)
    (predicate : list (nest.t Tensor) -> result PyObj) (args : list Tensor)
  : result Tensor :=
  ret ← predicate_return input_dataset predicate args;
  ret ← convert_to_tensor ret dtypes.bool;
  if negb (bool_decide (dtype ret = dtypes.bool) &&
           tensor_shape.is_compatible_with (shape ret) tensor_shape.scalar)
  then Raise ValueError
  else Ok ret.

(** The traced call that [FilterDataset.__init__] makes. *)
Definition FilterDataset_trace (input_dataset : Dataset)
    (predicate : list (nest.t Tensor) -> result PyObj) : result Tensor :=
  input_types ← output_types input_dataset;
  Defun (nest.flatten input_types) (tf_predicate input_dataset predicate).

End FilterDataset.

(** ** Python generators as datasets *)

Record ndarray (NpDType : Type) := {
  array_dtype : NpDType;
  array_shape : list nat;
  array_data : list value;
}.
Arguments array_dtype {NpDType} _.
Arguments array_shape {NpDType} _.
Arguments array_data {NpDType} _.

Section from_generator.

(** The Python side: [G] is the state of the callable [generator],
    [call_generator] is [iter(generator())], [PyIter] is the state of a
    Python iterator and [next_] is [next(it)], with [None] for
    [StopIteration]; [_convert] is [script_ops.FuncRegistry._convert] and
    [as_numpy_dtype] the NumPy type of a [DType]. *)
Context {G PyIter PyValue NpDType : Type} `{EqDecision NpDType}.
Variable call_generator : G -> PyIter * G.
Variable next_ : PyIter -> option (nest.t PyValue * PyIter).
Variable _convert : nest.t PyValue -> ndarray NpDType.
Variable as_numpy_dtype : DType -> NpDType.

(** [Dataset._GeneratorState]; [_iterators] is the [defaultdict]. *)
Record _GeneratorState := {
  _generator : G;
  _next_id : Z;
  _iterators : gmap Z PyIter;
}.

Definition _GeneratorState_init (generator : G) : _GeneratorState :=
  {| _generator := generator; _next_id := 0; _iterators := ∅ |}.

Definition get_next_id (self : _GeneratorState) : Z * _GeneratorState :=
  let ret := _next_id self in
  (ret, {| _generator := _generator self;
           _next_id := _next_id self + 1;
           _iterators := _iterators self |}).

(** [self._iterators[iterator_id]]: a missing key is filled in by the
    default factory [lambda: iter(generator())]. *)
Definition get_iterator (iterator_id : Z) (self : _GeneratorState)
  : PyIter * _GeneratorState :=
  match _iterators self !! iterator_id with
  | Some it => (it, self)
  | None =>
      let '(it, g) := call_generator (_generator self) in
      (it, {| _generator := g;
              _next_id := _next_id self;
              _iterators := <[iterator_id := it]> (_iterators self) |})
  end.

(** [del self._iterators[iterator_id]] *)
Definition iterator_completed (iterator_id : Z) (self : _GeneratorState)
  : result unit * _GeneratorState :=
  match _iterators self !! iterator_id with
  | Some _ =>
      (Ok tt, {| _generator := _generator self;
                 _next_id := _next_id self;
                 _iterators := delete iterator_id (_iterators self) |})
  | None => (Raise KeyError, self)
  end.

(** The checks of [generator_py_func] on the converted components. *)
Definition check_component
    (c : ndarray NpDType * DType * TensorShape) : result unit :=
  let '(ret_array, expected_dtype, expected_shape) := c in
  if bool_decide (array_dtype ret_array ≠ as_numpy_dtype expected_dtype)
  then Raise TypeError
  else if negb (tensor_shape.is_compatible_with expected_shape
                  (tensor_shape.as_shape (array_shape ret_array)))
  then Raise ValueError
  else Ok tt.

(** The body of [generator_py_func] after its [try] statement: the
    yielded [values] are converted to arrays, and every array is checked
    against the declared type and shape of its component. *)
Definition converted_and_checked (output_types : nest.t DType)
    (output_shapes : nest.t TensorShape) (values : nest.t PyValue)
  : result (list (ndarray NpDType)) :=
  let flattened_types := nest.flatten output_types in
  let flattened_shapes := nest.flatten output_shapes in
  components ← nest.flatten_up_to output_types values;
  let ret_arrays := _convert <$> components in
  for_each (zip (zip ret_arrays flattened_types) flattened_shapes)
           check_component;;
  Ok ret_arrays.

(** [generator_py_func], closed over the declared schema; the state is
    the registry after the call, whether it returns or raises.  [next]
    advances the iterator that the registry holds. *)
Definition generator_py_func (output_types : nest.t DType)
    (output_shapes : nest.t TensorShape)
    (iterator_id : Z) (self : _GeneratorState)
  : result (list (ndarray NpDType)) * _GeneratorState :=
  let '(it, self) := get_iterator iterator_id self in
  match next_ it with
  | None =>
      let '(deleted, self) := iterator_completed iterator_id self in
      (deleted;; Raise StopIteration, self)
  | Some (values, it') =>
      let self := {| _generator := _generator self;
                     _next_id := _next_id self;
                     _iterators := <[iterator_id := it']> (_iterators self) |} in
      (converted_and_checked output_types output_shapes values, self)
  end.

(** [generator_map_fn], as the graph runs it: the flat values of the
    [py_func], packed as the declared types. *)
Definition generator_map_fn (output_types : nest.t DType)
    (output_shapes : nest.t TensorShape)
    (iterator_id : Z) (self : _GeneratorState)
  : result (nest.t (ndarray NpDType)) * _GeneratorState :=
  let '(flat_values, self) :=
    generator_py_func output_types output_shapes iterator_id self in
  (flat_values ← flat_values; nest.pack_sequence_as output_types flat_values,
   self).

(** A component that passes both checks. *)
Definition component_ok (ret_array : ndarray NpDType)
    (expected_dtype : DType) (expected_shape : TensorShape) : Prop :=
  array_dtype ret_array = as_numpy_dtype expected_dtype ∧
  tensor_shape.is_compatible_with expected_shape
    (tensor_shape.as_shape (array_shape ret_array)) = true.

End from_generator.

(** ** A generator for the examples *)

(** A generator function that yields the integers 1 and 2: an iterator is
    the list of what it has yet to yield; a yielded integer converts to an
    int64 scalar array, a yielded tuple to a vector. *)
(** ** Python values that a predicate returns *)

(** Modelled from the spec: [ops.convert_to_tensor] is not part of the
    sources, and the spec has of it only what [Filter] asks of a
    predicate, "a single boolean scalar".  A predicate returns a tensor of
    the graph or a Python constant.  For a requested dtype, a tensor of
    that dtype is returned as it is and a tensor of another dtype is
    refused with ValueError; a Python bool makes a scalar boolean tensor
    and a Python int a scalar tensor of a requested numeric dtype; any
    other constant is refused with TypeError. *)
Module ops.

Inductive object :=
| TensorObj (t : Tensor)
| BoolObj (b : Datatypes.bool)
| IntObj (z : Z).

Definition convert_to_tensor (value : object) (dtype_ : DType) : result Tensor :=
  match value with
  | TensorObj t =>
      if bool_decide (dtype t = dtype_) then Ok t else Raise ValueError
  | BoolObj _ =>
      match dtype_ with
      | dtypes.bool => Ok (mkTensor dtypes.bool tensor_shape.scalar)
      | _ => Raise TypeError
      end
  | IntObj _ =>
      match dtype_ with
      | dtypes.int32 | dtypes.int64 | dtypes.float32 | dtypes.float64 =>
          Ok (mkTensor dtype_ tensor_shape.scalar)
      | _ => Raise TypeError
      end
  end.

End ops.

Module example.

Definition call_generator (g : unit) : list Z * unit := ([1; 2], g).

Definition next_ (it : list Z) : option (nest.t Z * list Z) :=
  match it with
  | x :: rest => Some (Leaf x, rest)
  | [] => None
  end.

Definition as_numpy_dtype (t : DType) : DType := t.

Definition _convert (v : nest.t Z) : ndarray DType :=
  match v with
  | Leaf z =>
      {| array_dtype := dtypes.int64; array_shape := [];
         array_data := [IntV z] |}
  | Node _ children =>
      {| array_dtype := dtypes.int64; array_shape := [length children];
         array_data := IntV <$> nest.flatten v |}
  end.

(** [generator_py_func] for this generator, declared as int64 scalars. *)
Definition pull : Z -> _GeneratorState -> result (list (ndarray DType)) * _GeneratorState :=
  generator_py_func call_generator next_ _convert as_numpy_dtype
    (Leaf dtypes.int64) (Leaf tensor_shape.scalar).

(** A predicate that ignores its element and returns a scalar boolean
    tensor, and a conversion that takes tensors as they are. *)
Definition always (args : list (nest.t Tensor)) : result Tensor :=
  Ok {| dtype := dtypes.bool; shape := tensor_shape.scalar |}.

Definition convert_to_tensor (x : Tensor) (t : DType) : result Tensor := Ok x.

(** The predicate [lambda x: 1], and one that returns the Python [True]. *)
Definition one (args : list (nest.t Tensor)) : result ops.object :=
  Ok (ops.IntObj 1).

Definition yes (args : list (nest.t Tensor)) : result ops.object :=
  Ok (ops.BoolObj true).

(** The dataset of the integers below ten, and one of floats. *)
Definition ten : Dataset := RangeDataset (Static 0) (Static 10) (Static 1).

Definition floats : Dataset :=
  Source (Leaf dtypes.float32) (Leaf tensor_shape.scalar) (Ok []).

(** Vectors of int64 of any length, and vectors of three. *)
Definition vectors : Dataset :=
  Source (Leaf dtypes.int64) (Leaf (Some [None])) (Ok []).

Definition triples : Dataset :=
  Source (Leaf dtypes.int64) (Leaf (Some [Some 3%nat])) (Ok []).

Definition letters : Dataset :=
  Source (Leaf dtypes.string) (Leaf tensor_shape.scalar)
    (Ok [Leaf (StrV "a"); Leaf (StrV "b"); Leaf (StrV "c");
         Leaf (StrV "d"); Leaf (StrV "e")]).

(** An iterator of int64 scalars, as [Iterator.from_structure] makes it. *)
Definition scalar_ints : Iterator :=
  {| _iterator_resource :=
       gen_dataset_ops.iterator EmptyString EmptyString
         [dtypes.int64] [tensor_shape.scalar];
     _initializer := None;
     _output_types := Leaf dtypes.int64;
     _output_shapes := Leaf tensor_shape.scalar |}.

End example.

(** ** What the claims say of the schema of a node *)

(** [t] covers [s]: whatever tensor has the shape [s] has the shape [t].
    A dimension covers another when it is unknown or the same; a shape
    covers another when its rank is unknown, or the ranks are known and
    equal and it covers the other dimension by dimension. *)
Definition dim_covers (t s : Dimension) : Prop := t = None ∨ t = s.

Definition covers (t s : TensorShape) : Prop :=
  match t, s with
  | None, _ => True
  | Some dt, Some ds => Forall2 dim_covers dt ds
  | Some _, None => False
  end.

(** The leaf shape [out] of a concatenation, against the leaf shapes [s1]
    and [s2] of its inputs: it covers both, and it is the most specific
    shape that does, as every shape that covers both covers [out].  It
    is then compatible with both. *)
Definition most_specific_leaf (s1 s2 out : TensorShape) : Prop :=
  covers out s1 ∧ covers out s2 ∧
  (forall t, covers t s1 -> covers t s2 -> covers t out) ∧
  tensor_shape.is_compatible_with out s1 = true ∧
  tensor_shape.is_compatible_with out s2 = true.

(** The leaf shape [out] of a batch, against the leaf shape [s] of its
    input: [s] with an unknown leading dimension; of a shape of unknown
    rank nothing more is known. *)
Definition batched_leaf (s out : TensorShape) : Prop :=
  out = match s with
        | Some dims => Some (None :: dims)
        | None => None
        end.

(** A tensor that is a scalar boolean, for [tf_predicate]. *)
Definition scalar_boolean (t : Tensor) : Prop :=
  dtype t = dtypes.bool ∧
  tensor_shape.is_compatible_with (shape t) tensor_shape.scalar = true.

(** ** More of the module *)

(** The [initializer] property of an [Iterator]. *)
Definition initializer (self : Iterator) : result gen_dataset_ops.Operation :=
  match _initializer self with
  | Some op => Ok op
  | None => Raise ValueError
  end.

Definition make_initializable_iterator (self : Dataset)
    (shared_name : option String.string) : result Iterator :=
  Iterator_from_dataset self shared_name.

(** Modelled from the spec: the wrapper of the [IteratorGetNext] kernel is
    not part of the sources; a pull returns an element of the iterator's
    schema, one tensor for each declared type with the shape declared for
    it. *)
Definition iterator_get_next (iterator_resource : gen_dataset_ops.resource)
    (output_types : list DType) (output_shapes : list TensorShape) : list Tensor :=
  zip_with mkTensor output_types output_shapes.

(** [Iterator.get_next] *)
Definition get_next (self : Iterator) : result (nest.t Tensor) :=
  nest.pack_sequence_as (_output_types self)
    (iterator_get_next (_iterator_resource self)
       (nest.flatten (_output_types self))
       (nest.flatten (_output_shapes self))).

(** The flat [output_shapes] and [output_types] that
    [ZipDataset.make_dataset_resource] gives to the kernel: for each
    dataset, in [flatten] order, its flattened shapes, or types. *)
Definition ZipDataset_flat_output_shapes (datasets : nest.t Dataset)
  : result (list TensorShape) :=
  per_dataset ← sequence (output_shapes <$> nest.flatten datasets);
  Ok (concat (nest.flatten <$> per_dataset)).

Definition ZipDataset_flat_output_types (datasets : nest.t Dataset)
  : result (list DType) :=
  per_dataset ← sequence (output_types <$> nest.flatten datasets);
  Ok (concat (nest.flatten <$> per_dataset)).

Section PaddedBatchDataset.

(** [ops.convert_to_tensor(value, name="padding_value")], which is not
    part of the sources. *)
Context {PyObj : Type}.
Variable convert_padding_value : PyObj -> result Tensor.

Definition _padding_value_to_tensor (value : PyObj) (output_type : DType)
  : result Tensor :=
  value ← convert_padding_value value;
  if negb (tensor_shape.is_compatible_with (shape value) tensor_shape.scalar)
  then Raise ValueError
  else if bool_decide (dtype value ≠ output_type)
  then Raise TypeError
  else Ok value.

End PaddedBatchDataset.

Section issue_identifiers.

Context {G PyIter : Type}.

(** [n] calls of [get_next_id], one after the other. *)
Fixpoint issue (n : nat) (self : @_GeneratorState G PyIter)
  : list Z * @_GeneratorState G PyIter :=
  match n with
  | O => ([], self)
  | S n' =>
      let '(id, self) := get_next_id self in
      let '(ids, self) := issue n' self in
      (id :: ids, self)
  end.

End issue_identifiers.

(** * Properties *)

(** ** The error monad *)

Lemma raises_not_Ok {A} (r : result A) : raises r <-> ~ is_Ok r.
Proof.
  unfold raises, is_Ok. destruct r as [a|e]; split.
  - intros [e He]. discriminate.
  - intros H. exfalso. apply H. eauto.
  - intros _ [a Ha]. discriminate.
  - eauto.
Qed.

Lemma bind_Ok {A B} (r : result A) (k : A -> result B) (b : B) :
  r ≫= k = Ok b <-> exists a, r = Ok a ∧ k a = Ok b.
Proof.
  destruct r as [a|e]; simpl; split.
  - intros H. exists a. done.
  - intros [a' [[= ->] H]]. done.
  - intros [=].
  - intros [a [[=] _]].
Qed.

Lemma for_each_Ok {A} (l : list A) (body : A -> result unit) :
  for_each l body = Ok tt <-> Forall (fun x => body x = Ok tt) l.
Proof.
  induction l as [|x l IH]; simpl.
  - split; [constructor | done].
  - destruct (body x) as [[]|e] eqn:Hx; simpl.
    + rewrite IH. split.
      * intros H. constructor; done.
      * intros H. by inversion H.
    + split; [done |]. intros H. inversion H; congruence.
Qed.

Lemma for_each_result {A} (l : list A) (body : A -> result unit) :
  for_each l body = Ok tt ∨
  exists x e, x ∈ l ∧ body x = Raise e ∧ for_each l body = Raise e.
Proof.
  induction l as [|x l IH]; simpl; [by left |].
  destruct (body x) as [[]|e] eqn:Hx; simpl.
  - destruct IH as [IH | (y & e & Hy & Hb & Hr)]; [by left | right].
    exists y, e. split_and!; [by right | done | done].
  - right. exists x, e. split_and!; [by left | done | done].
Qed.

(** The first element on which the body raises decides the loop. *)
Lemma for_each_first_raise {A} (l1 l2 : list A) (x : A) (body : A -> result unit) e :
  Forall (fun y => body y = Ok tt) l1 ->
  body x = Raise e ->
  for_each (l1 ++ x :: l2) body = Raise e.
Proof.
  intros Hall Hx. induction Hall as [|y l1 Hy _ IH]; simpl.
  - by rewrite Hx.
  - by rewrite Hy.
Qed.

(** ** Nested structures *)

Module nest_facts.
Import nest.

Lemma same_structure_flatten_length {A B} (s1 : t A) (s2 : t B) :
  same_structure s1 s2 = true -> length (flatten s1) = length (flatten s2).
Proof.
  revert s2. induction s1 as [a|c ch IH] using t_ind'; intros [b|c2 ch2]; simpl; try done.
  intros [_ H]%andb_prop. revert ch2 H.
  induction IH as [|x r Hx _ IHr]; intros [|y r2]; simpl; try done.
  intros [H1 H2]%andb_prop. rewrite !length_app.
  by rewrite (Hx _ H1), (IHr _ H2).
Qed.

Lemma same_structure_refl {A} (s : t A) : same_structure s s = true.
Proof.
  induction s as [a|c ch IH] using t_ind'; simpl; [done |].
  rewrite bool_decide_true by done. simpl.
  induction IH as [|x r Hx _ IHr]; simpl; [done |].
  by rewrite Hx, IHr.
Qed.

Lemma same_structure_sym {A B} (s1 : t A) (s2 : t B) :
  same_structure s1 s2 = true -> same_structure s2 s1 = true.
Proof.
  revert s2. induction s1 as [a|c ch IH] using t_ind'; intros [b|c2 ch2]; simpl; try done.
  intros [Hc H]%andb_prop. apply bool_decide_eq_true in Hc as ->.
  rewrite bool_decide_true by done. simpl. revert ch2 H.
  induction IH as [|x r Hx _ IHr]; intros [|y r2]; simpl; try done.
  intros [H1 H2]%andb_prop. by rewrite (Hx _ H1), (IHr _ H2).
Qed.

Lemma same_structure_trans {A B C} (s1 : t A) (s2 : t B) (s3 : t C) :
  same_structure s1 s2 = true -> same_structure s2 s3 = true ->
  same_structure s1 s3 = true.
Proof.
  revert s2 s3. induction s1 as [a|c ch IH] using t_ind';
    intros [b|c2 ch2] [d|c3 ch3]; simpl; try done.
  intros [Hc H]%andb_prop [Hc' H']%andb_prop.
  apply bool_decide_eq_true in Hc as ->. rewrite Hc'. simpl.
  clear Hc'. revert ch2 ch3 H H'.
  induction IH as [|x r Hx _ IHr]; intros [|y r2] [|z r3]; simpl; try done.
  intros [H1 H2]%andb_prop [H1' H2']%andb_prop.
  by rewrite (Hx _ _ H1 H1'), (IHr _ _ H2 H2').
Qed.

Lemma same_structure_map {A B} (f : A -> B) (s : t A) :
  same_structure s (map_structure f s) = true.
Proof.
  induction s as [a|c ch IH] using t_ind'; simpl; [done |].
  rewrite bool_decide_true by done. simpl.
  induction IH as [|x r Hx _ IHr]; simpl; [done |].
  by rewrite Hx, IHr.
Qed.

Lemma flatten_map_structure {A B} (f : A -> B) (s : t A) :
  flatten (map_structure f s) = f <$> flatten s.
Proof.
  induction s as [a|c ch IH] using t_ind'; simpl; [done |].
  induction IH as [|x r Hx _ IHr]; simpl; [done |].
  by rewrite fmap_app, Hx, IHr.
Qed.

(** [pack_from] takes as many values as the structure has leaves. *)
Lemma pack_from_app {A B} (s : t B) (l r : list A) :
  length l = length (flatten s) ->
  exists p, pack_from s (l ++ r) = Some (p, r) ∧ flatten p = l ∧
            same_structure s p = true.
Proof.
  revert l r. induction s as [b|c ch IH] using t_ind'; intros l r Hlen.
  - destruct l as [|x [|]]; simplify_eq/=. by exists (Leaf x).
  - simpl in Hlen.
    enough (exists ps, (fix go (ch : list (t B)) (l : list A)
                        : option (list (t A) * list A) :=
               match ch with
               | [] => Some ([], l)
               | s1 :: rest =>
                   match pack_from s1 l with
                   | Some (p1, l1) =>
                       match go rest l1 with
                       | Some (ps, l2) => Some (p1 :: ps, l2)
                       | None => None
                       end
                   | None => None
                   end
               end) ch (l ++ r) = Some (ps, r) ∧
              concat (List.map flatten ps) = l ∧
              same_structure (Node c ch) (Node c ps) = true) as (ps & Hgo & Hfl & Hss).
    { exists (Node c ps). simpl. rewrite Hgo. done. }
    simpl. rewrite bool_decide_true by done. simpl.
    revert l Hlen. induction IH as [|x rest Hx _ IHr]; intros l Hlen; simpl in *.
    + destruct l; [|done]. by exists [].
    + rewrite length_app in Hlen.
      destruct (Hx (take (length (flatten x)) l)
                   (drop (length (flatten x)) l ++ r)) as (p & Hp & Hfp & Hsp).
      { rewrite length_take. lia. }
      rewrite (assoc_L (++)), take_drop in Hp. rewrite Hp.
      destruct (IHr (drop (length (flatten x)) l)) as (ps & Hps & Hfps & Hsps).
      { rewrite length_drop. lia. }
      rewrite Hps. exists (p :: ps). simpl.
      rewrite Hfp, Hfps, take_drop, Hsp, Hsps. done.
Qed.

Lemma pack_sequence_as_ok {A B} (s : t B) (l : list A) :
  length (flatten s) = length l ->
  exists p, pack_sequence_as s l = Ok p ∧ flatten p = l ∧
            same_structure s p = true.
Proof.
  intros Hlen. unfold pack_sequence_as. rewrite bool_decide_true by done.
  destruct (pack_from_app s l [] (eq_sym Hlen)) as (p & Hp & Hf & Hs).
  rewrite app_nil_r in Hp. rewrite Hp. by exists p.
Qed.

Lemma pack_sequence_as_raises {A B} (s : t B) (l : list A) :
  length (flatten s) ≠ length l -> pack_sequence_as s l = Raise ValueError.
Proof. intros H. unfold pack_sequence_as. by rewrite bool_decide_false. Qed.

(** Two structures of the same shape with the same leaves are equal. *)
Lemma same_structure_flatten_inj {A B} (s : t B) (p q : t A) :
  same_structure s p = true -> same_structure s q = true ->
  flatten p = flatten q -> p = q.
Proof.
  revert p q. induction s as [b|c ch IH] using t_ind';
    intros [x|c1 ch1] [y|c2 ch2]; simpl; try done.
  - by intros _ _ [= ->].
  - intros [Hc H]%andb_prop [Hc' H']%andb_prop Hfl.
    apply bool_decide_eq_true in Hc as <-. apply bool_decide_eq_true in Hc' as <-.
    f_equal. revert ch1 ch2 H H' Hfl.
    induction IH as [|x rest Hx _ IHr]; intros [|p ps] [|q qs]; simpl; try done.
    intros [H1 H2]%andb_prop [H1' H2']%andb_prop Hfl.
    apply app_inj_1 in Hfl as [Hf1 Hf2].
    + f_equal; [by apply Hx | by apply IHr].
    + rewrite <- (same_structure_flatten_length _ _ H1).
      by rewrite <- (same_structure_flatten_length _ _ H1').
Qed.

(** Packing the mapped leaves of a structure maps the structure. *)
Lemma pack_sequence_as_map {A B} (f : A -> B) (s : t A) :
  pack_sequence_as s (f <$> flatten s) = Ok (map_structure f s).
Proof.
  destruct (pack_sequence_as_ok s (f <$> flatten s)) as (p & Hp & Hf & Hs).
  { by rewrite length_fmap. }
  rewrite Hp. f_equal.
  apply (same_structure_flatten_inj s); [done | apply same_structure_map |].
  by rewrite flatten_map_structure.
Qed.

Lemma flatten_up_to_length {A B} (shallow : t B) (input : t A) (parts : list (t A)) :
  flatten_up_to shallow input = Ok parts ->
  length parts = length (flatten shallow).
Proof.
  revert input parts. induction shallow as [b|c ch IH] using t_ind';
    intros input parts; simpl.
  - by intros [= <-].
  - destruct input as [a|c' ch']; [done |].
    case_bool_decide; [| done]. revert ch' parts.
    induction IH as [|x rest Hx _ IHr]; intros [|y ch'] parts; simpl; try done.
    + by intros [= <-].
    + destruct (flatten_up_to x y) as [xs|] eqn:Hxy; [| done]. simpl.
      match goal with
      | |- context [mbind _ ?r] => destruct r as [ys|] eqn:Hys; [| done]
      end.
      simpl. intros [= <-]. rewrite !length_app.
      by rewrite (Hx _ _ Hxy), (IHr _ _ Hys).
Qed.

Lemma flatten_up_to_raises {A B} (shallow : t B) (input : t A) (e : exn) :
  flatten_up_to shallow input = Raise e -> e = StructureMismatch.
Proof.
  revert input. induction shallow as [b|c ch IH] using t_ind';
    intros input; simpl; [done |].
  destruct input as [a|c' ch']; [by intros [= <-] |].
  case_bool_decide; [| by intros [= <-]]. revert ch'.
  induction IH as [|x rest Hx _ IHr]; intros [|y ch']; simpl;
    try (by intros [= <-]).
  destruct (flatten_up_to x y) as [xs|e'] eqn:Hxy; simpl.
  - match goal with
    | |- context [mbind _ ?r] => destruct r as [ys|e''] eqn:Hys
    end; simpl; [done |].
    intros [= ->]. by eapply IHr.
  - intros [= ->]. by eapply Hx.
Qed.

End nest_facts.

(** ** Dataset.map *)

(** C10.  [Dataset.map] with [output_buffer_size=b] is the map node of the
    same call without it, followed by a prefetch of buffer size [b] (so
    [map(f, output_buffer_size=b)] is [map(f).prefetch(b)]): a
    [PrefetchDataset] node of buffer size [b] whose input is that map
    node, which is also what [prefetch(b)] builds on any dataset.  The map
    node is a plain [MapDataset] when neither [num_threads] nor
    [num_parallel_calls] is given and a [ParallelMapDataset] otherwise,
    whose degree is [num_threads] when that is given, whatever
    [num_parallel_calls] is, and [num_parallel_calls] when only that is. *)
Theorem Dataset_map_dispatch (self : Dataset) (map_func : py_function)
    (num_threads num_parallel_calls : option scalar_arg) (b n : scalar_arg) :
  Dataset_map self map_func num_threads (Some b) num_parallel_calls
  = Dataset_prefetch
      (Dataset_map self map_func num_threads None num_parallel_calls) b
  ∧ Dataset_map self map_func None (Some b) None
    = Dataset_prefetch (Dataset_map self map_func None None None) b
  ∧ Dataset_map self map_func None None None = MapDataset self map_func
  ∧ Dataset_map self map_func None None (Some n)
    = ParallelMapDataset self map_func n
  ∧ Dataset_map self map_func (Some n) None num_parallel_calls
    = ParallelMapDataset self map_func n
  ∧ ((exists degree,
        Dataset_map self map_func num_threads None num_parallel_calls
        = ParallelMapDataset self map_func degree)
     <-> num_threads ≠ None ∨ num_parallel_calls ≠ None)
  ∧ Dataset_map self map_func num_threads (Some b) num_parallel_calls
    = PrefetchDataset
        (Dataset_map self map_func num_threads None num_parallel_calls) b
  ∧ Dataset_map self map_func None (Some b) None
    = PrefetchDataset (MapDataset self map_func) b
  ∧ Dataset_map self map_func None (Some b) (Some n)
    = PrefetchDataset (ParallelMapDataset self map_func n) b
  ∧ Dataset_map self map_func (Some n) (Some b) num_parallel_calls
    = PrefetchDataset (ParallelMapDataset self map_func n) b
  ∧ (forall d, Dataset_prefetch d b = PrefetchDataset d b)
  ∧ (forall d, Dataset_map self map_func num_threads None num_parallel_calls
               ≠ PrefetchDataset d b).
Proof.
  unfold Dataset_map, Dataset_prefetch.
  destruct num_threads as [t|], num_parallel_calls as [p|];
    split_and!; try reflexivity; try (by intros d [=]); split;
    try (intros _; by left); try (intros _; by right);
    try (intros _; by eexists).
  - intros [degree [=]].
  - intros [[]|[]]; done.
Qed.

(** ** Dataset.range *)

(** C2, as the code has it.  [Dataset.range] with a start, a stop and a
    step builds the [RangeDataset] of these three arguments without looking
    at their values, also when the step is statically 0; it raises, a
    [ValueError], exactly when it is given no argument or more than
    three. *)
Theorem Dataset_range_builds (start stop step : scalar_arg)
    (args : list scalar_arg) :
  Dataset_range [start; stop; step] = Ok (RangeDataset start stop step)
  ∧ Dataset_range [start; stop; Static 0]
    = Ok (RangeDataset start stop (Static 0))
  ∧ (raises (Dataset_range args) <-> ¬ (1 <= length args <= 3)%nat)
  ∧ (raises (Dataset_range args) <-> Dataset_range args = Raise ValueError).
Proof.
  split_and!; try reflexivity.
  - destruct args as [|a0 [|a1 [|a2 [|a3 r]]]]; simpl; split;
      try (intros [e [=]]); try lia; try (intros _; by eexists).
    all: intros H; exfalso; apply H; lia.
  - destruct args as [|a0 [|a1 [|a2 [|a3 r]]]]; simpl; split;
      try (intros [e [=]]); try done; try (intros _; by eexists).
Qed.

(** C2, as the claim has it, fails: a range whose step is the constant 0
    is constructed. *)
Lemma Dataset_range_zero_step_constructs :
  ¬ raises (Dataset_range [Static 0; Static 5; Static 0]).
Proof. intros [e [=]]. Qed.

(** ** Dataset.shard *)

Lemma Dataset_shard_result (self : Dataset) (num_shards index : scalar_arg) :
  Dataset_shard self num_shards index = Raise ValueError ∨
  Dataset_shard self num_shards index
  = Ok (MapDataset
          (FilterDataset
             (ZipDataset
                (Node CTuple
                   [Leaf (RangeDataset (Static 0) (Static max_value) (Static 1));
                    Leaf self]))
             (filter_fn num_shards index))
          {| trace := second_of_two; call := second_of_two |}).
Proof.
  unfold Dataset_shard.
  repeat match goal with |- context [if ?b then _ else _] => destruct b end;
    auto.
Qed.

Lemma Dataset_shard_raises (self : Dataset) (num_shards index : scalar_arg) :
  raises (Dataset_shard self num_shards index) <->
    (exists n', tensor_util.constant_value num_shards = Some n' ∧ n' < 1) ∨
    (exists i', tensor_util.constant_value index = Some i' ∧ i' < 0) ∨
    (exists n' i', tensor_util.constant_value num_shards = Some n' ∧
                   tensor_util.constant_value index = Some i' ∧ i' >= n').
Proof.
  unfold Dataset_shard.
  destruct num_shards as [a|a], index as [b|b]; simpl;
    repeat (match goal with
            | |- context [bool_decide ?P] => destruct (bool_decide_reflect P)
            end; simpl);
    split; try (by intros [e [=]]); try (intros _; by eexists);
    try (intros _; by eauto 8 with lia);
    intros [(? & ? & ?)|[(? & ? & ?)|(? & ? & ? & ? & ?)]]; simplify_eq; lia.
Qed.

(** C3, as the code has it.  [Dataset.shard] raises at construction, and
    then a [ValueError], exactly when a statically known [num_shards] is
    below 1, or a statically known [index] is negative, or both are
    statically known and [index >= num_shards].  For a statically known
    pair that is [num_shards < 1 ∨ index < 0 ∨ index >= num_shards], and
    [shard(3, 5)] raises.  A value that is not statically known is not
    checked at construction: with neither known the construction
    succeeds. *)
Theorem Dataset_shard_raises_iff (self : Dataset) (num_shards index : scalar_arg)
    (n i : Z) :
  (raises (Dataset_shard self num_shards index) <->
     (exists n', tensor_util.constant_value num_shards = Some n' ∧ n' < 1) ∨
     (exists i', tensor_util.constant_value index = Some i' ∧ i' < 0) ∨
     (exists n' i', tensor_util.constant_value num_shards = Some n' ∧
                    tensor_util.constant_value index = Some i' ∧ i' >= n'))
  ∧ (raises (Dataset_shard self num_shards index) <->
       Dataset_shard self num_shards index = Raise ValueError)
  ∧ (raises (Dataset_shard self (Static n) (Static i)) <->
       n < 1 ∨ i < 0 ∨ i >= n)
  ∧ Dataset_shard self (Static 3) (Static 5) = Raise ValueError
  ∧ is_Ok (Dataset_shard self (Dynamic n) (Dynamic i)).
Proof.
  split_and!.
  - apply Dataset_shard_raises.
  - split; [| intros H; by eexists].
    intros [e He]. destruct (Dataset_shard_result self num_shards index) as [H|H];
      [done | congruence].
  - rewrite Dataset_shard_raises. simpl. split.
    + intros [(? & ? & ?)|[(? & ? & ?)|(? & ? & ? & ? & ?)]]; simplify_eq; lia.
    + intros [?|[?|?]]; eauto 8.
  - reflexivity.
  - by eexists.
Qed.

(** C3, as the claim has it, fails in its last part: the index is not
    statically known, and the construction still raises, on the statically
    known number of shards. *)
Lemma Dataset_shard_checks_known_value :
  tensor_util.constant_value (Dynamic 0) = None ∧
  Dataset_shard (RangeDataset (Static 0) (Static 10) (Static 1))
                (Static 0) (Dynamic 0) = Raise ValueError.
Proof. split; reflexivity. Qed.

(** ** Loops over zipped lists *)

Lemma raises_unit (r : result unit) : raises r <-> r ≠ Ok tt.
Proof.
  destruct r as [[]|e]; split; try done.
  - by intros [e [=]].
  - intros _. by eexists.
Qed.

Lemma for_each_zip_Ok {A B} (l1 : list A) (l2 : list B)
    (body : A * B -> result unit) :
  length l1 = length l2 ->
  for_each (zip l1 l2) body = Ok tt
  <-> Forall2 (fun a b => body (a, b) = Ok tt) l1 l2.
Proof.
  revert l2. induction l1 as [|a l1 IH]; intros [|b l2] Hlen; simplify_eq/=.
  - split; [constructor | done].
  - destruct (body (a, b)) as [[]|e] eqn:Hb; simpl.
    + rewrite IH by done. split.
      * intros H. by constructor.
      * intros H. by inversion H.
    + split; [done |]. intros H. inversion H; congruence.
Qed.

Lemma Forall3_zip_with {A B C} (P : A -> B -> C -> Prop) (f : A -> B -> C)
    (l1 : list A) (l2 : list B) :
  length l1 = length l2 ->
  (forall a b, P a b (f a b)) ->
  Forall3 P l1 l2 (zip_with f l1 l2).
Proof.
  intros Hlen HP. revert l2 Hlen.
  induction l1 as [|a l1 IH]; intros [|b l2] Hlen; simplify_eq/=;
    constructor; auto.
Qed.

(** ** Shapes *)

Module tensor_shape_facts.
Import tensor_shape.

Lemma dim_is_compatible_with_refl (d : Dimension) :
  dim_is_compatible_with d d = true.
Proof. destruct d; simpl; [by rewrite bool_decide_true | done]. Qed.

Lemma dim_most_specific_idem (d : Dimension) : dim_most_specific d d = d.
Proof. destruct d; simpl; [by rewrite bool_decide_true | done]. Qed.

Lemma dim_most_specific_conflict (n m : nat) :
  n ≠ m -> dim_most_specific (Some n) (Some m) = None.
Proof. intros H. simpl. by rewrite bool_decide_false. Qed.

Lemma dim_most_specific_unknown (d : Dimension) :
  dim_most_specific None d = None ∧ dim_most_specific d None = None.
Proof. by destruct d. Qed.

Lemma dim_most_specific_covers (d1 d2 : Dimension) :
  dim_covers (dim_most_specific d1 d2) d1 ∧
  dim_covers (dim_most_specific d1 d2) d2.
Proof.
  unfold dim_covers.
  destruct d1 as [a|], d2 as [b|]; simpl; try case_bool_decide;
    simplify_eq; auto.
Qed.

Lemma dim_most_specific_least (t d1 d2 : Dimension) :
  dim_covers t d1 -> dim_covers t d2 -> dim_covers t (dim_most_specific d1 d2).
Proof.
  unfold dim_covers. intros [->| ->] H; [by left |].
  destruct H as [->| ->]; [by left |]. right.
  by rewrite dim_most_specific_idem.
Qed.

Lemma dims_most_specific_covers (l1 l2 : list Dimension) :
  length l1 = length l2 ->
  Forall2 dim_covers (zip_with dim_most_specific l1 l2) l1 ∧
  Forall2 dim_covers (zip_with dim_most_specific l1 l2) l2.
Proof.
  revert l2. induction l1 as [|d1 l1 IH]; intros [|d2 l2] Hlen; simplify_eq/=;
    [split; constructor |].
  destruct (IH l2 Hlen) as [H1 H2].
  destruct (dim_most_specific_covers d1 d2) as [E1 E2].
  split; by constructor.
Qed.

Lemma dims_most_specific_least (lt l1 l2 : list Dimension) :
  Forall2 dim_covers lt l1 -> Forall2 dim_covers lt l2 ->
  Forall2 dim_covers lt (zip_with dim_most_specific l1 l2).
Proof.
  intros H1. revert l2.
  induction H1 as [|t d1 lt l1 Hd1 _ IH]; intros l2 H2;
    inversion H2 as [|? d2 ? l2' Hd2 H2']; subst; simpl; constructor.
  - by apply dim_most_specific_least.
  - by apply IH.
Qed.

Lemma dim_covers_compatible (t s : Dimension) :
  dim_covers t s -> dim_is_compatible_with t s = true.
Proof.
  intros [->| ->]; [done |]. apply dim_is_compatible_with_refl.
Qed.

Lemma covers_compatible (t s : TensorShape) :
  covers t s -> is_compatible_with t s = true.
Proof.
  destruct t as [lt|], s as [ls|]; simpl; try done.
  induction 1 as [|a b la lb Hab _ IH]; simpl; [done |].
  by rewrite (dim_covers_compatible _ _ Hab), IH.
Qed.

Lemma most_specific_compatible_shape_covers (s1 s2 : TensorShape) :
  covers (most_specific_compatible_shape s1 s2) s1 ∧
  covers (most_specific_compatible_shape s1 s2) s2.
Proof.
  destruct s1 as [l1|], s2 as [l2|]; simpl; try done.
  case_bool_decide as Hlen; simpl; [| done].
  by apply dims_most_specific_covers.
Qed.

Lemma most_specific_compatible_shape_least (t s1 s2 : TensorShape) :
  covers t s1 -> covers t s2 ->
  covers t (most_specific_compatible_shape s1 s2).
Proof.
  destruct t as [lt|]; [| done].
  destruct s1 as [l1|], s2 as [l2|]; simpl; try done.
  intros H1 H2.
  rewrite bool_decide_true
    by (by rewrite <- (Forall2_length _ _ _ H1), <- (Forall2_length _ _ _ H2)).
  by apply dims_most_specific_least.
Qed.

Lemma covers_antisym (t s : TensorShape) : covers t s -> covers s t -> t = s.
Proof.
  destruct t as [lt|], s as [ls|]; simpl; try done.
  intros H1 H2. f_equal. revert H2.
  induction H1 as [|a b la lb Hab _ IH]; intros H2; [done |].
  inversion H2 as [|???? Hba H2']; subst. f_equal; [| by apply IH].
  destruct Hab as [->| ->]; [| done]. by destruct Hba as [->| ->].
Qed.

Lemma most_specific_leaf_unique (s1 s2 out out' : TensorShape) :
  most_specific_leaf s1 s2 out -> most_specific_leaf s1 s2 out' -> out = out'.
Proof.
  intros (H1 & H2 & Hleast & _) (H1' & H2' & Hleast' & _).
  apply covers_antisym; [by apply Hleast' | by apply Hleast].
Qed.

Lemma most_specific_compatible_shape_leaf (s1 s2 : TensorShape) :
  most_specific_leaf s1 s2 (most_specific_compatible_shape s1 s2).
Proof.
  destruct (most_specific_compatible_shape_covers s1 s2) as [H1 H2].
  unfold most_specific_leaf. split_and!; [done | done | | |].
  - intros t. apply most_specific_compatible_shape_least.
  - by apply covers_compatible.
  - by apply covers_compatible.
Qed.

Lemma concatenate_vector_batched (s : TensorShape) :
  batched_leaf s (concatenate (vector None) s).
Proof. by destruct s. Qed.

End tensor_shape_facts.

(** ** ConcatenateDataset *)

(** C7, as the code has it.  For two datasets whose types and shapes have
    one structure each:
    [a.concatenate(b)] raises at construction exactly when the types of [a]
    and [b] differ in nesting structure or in a leaf type.  When it returns
    a dataset, that dataset has the output types of [a], and output shapes
    of the structure of [a]'s whose leaves are, position by position, the
    most specific shape that covers the leaves of [a] and of [b]: it
    covers both (so it is compatible with both), and every shape that
    covers both covers it.  Dimension by dimension, a size is kept where
    both sides know it and agree, and is unknown where two known sizes
    differ or where either side does not know it.  No other shape is the
    most specific that covers two given shapes. *)
Theorem ConcatenateDataset_schema (a b : Dataset) (ta tb : nest.t DType)
    (sa sb : nest.t TensorShape) :
  output_types a = Ok ta -> output_types b = Ok tb ->
  output_shapes a = Ok sa -> output_shapes b = Ok sb ->
  nest.same_structure ta sa = true -> nest.same_structure tb sb = true ->
  (raises (Dataset_concatenate a b) <->
     ¬ (nest.same_structure ta tb = true ∧ nest.flatten ta = nest.flatten tb))
  ∧ (forall c, Dataset_concatenate a b = Ok c ->
       output_types c = Ok ta ∧
       exists sc, output_shapes c = Ok sc ∧
                  nest.same_structure sa sc = true ∧
                  Forall3 most_specific_leaf (nest.flatten sa) (nest.flatten sb)
                          (nest.flatten sc))
  ∧ (forall d, tensor_shape.dim_most_specific d d = d)
  ∧ (forall n m, n ≠ m ->
       tensor_shape.dim_most_specific (Some n) (Some m) = None)
  ∧ (forall d, tensor_shape.dim_most_specific None d = None
               ∧ tensor_shape.dim_most_specific d None = None)
  ∧ (forall s1 s2 out out',
       most_specific_leaf s1 s2 out -> most_specific_leaf s1 s2 out' ->
       out = out').
Proof.
  intros Hta Htb Hsa Hsb Hwa Hwb.
  unfold Dataset_concatenate, ConcatenateDataset_init.
  rewrite Hta, Htb. simpl. unfold nest.assert_same_structure.
  destruct (nest.same_structure ta tb) eqn:Hss; simpl.
  - pose proof (nest_facts.same_structure_flatten_length _ _ Hss) as Hlen.
    pose proof (for_each_zip_Ok (nest.flatten ta) (nest.flatten tb)
      (fun '(x, y) => if bool_decide (x ≠ y) then Raise TypeError else Ok tt)
      Hlen) as Hloop.
    assert (Heq : for_each (zip (nest.flatten ta) (nest.flatten tb))
        (fun '(x, y) => if bool_decide (x ≠ y) then Raise TypeError else Ok tt)
        = Ok tt <-> nest.flatten ta = nest.flatten tb).
    { rewrite Hloop, list_eq_Forall2.
      split; intros H; (eapply Forall2_impl; [exact H |]); intros x y; simpl;
        (destruct (decide (x = y)) as [->|Hne];
         [rewrite bool_decide_false by (intros ?; done)
         |rewrite bool_decide_true by done]); done. }
    destruct (for_each _ _) as [[]|e] eqn:Hfe; simpl.
    + split_and!.
      * split; [by intros [e [=]] |]. intros H. exfalso. apply H.
        split; [done | by apply Heq].
      * intros c [= <-]. simpl. split; [done |].
        rewrite Hsa, Hsb. simpl.
        assert (Hl : length (nest.flatten sa) = length (nest.flatten sb)).
        { rewrite <- (nest_facts.same_structure_flatten_length _ _ Hwa).
          rewrite <- (nest_facts.same_structure_flatten_length _ _ Hwb).
          done. }
        destruct (nest_facts.pack_sequence_as_ok sa
          (zip_with tensor_shape.most_specific_compatible_shape
             (nest.flatten sa) (nest.flatten sb))) as (sc & Hp & Hf & Hs).
        { rewrite length_zip_with. lia. }
        exists sc. split_and!; [done | done |]. rewrite Hf.
        apply Forall3_zip_with; [done |].
        apply tensor_shape_facts.most_specific_compatible_shape_leaf.
      * apply tensor_shape_facts.dim_most_specific_idem.
      * apply tensor_shape_facts.dim_most_specific_conflict.
      * apply tensor_shape_facts.dim_most_specific_unknown.
      * apply tensor_shape_facts.most_specific_leaf_unique.
    + split_and!.
      * split; [| intros _; by eexists]. intros _ [_ H].
        apply Heq in H. done.
      * intros c [=].
      * apply tensor_shape_facts.dim_most_specific_idem.
      * apply tensor_shape_facts.dim_most_specific_conflict.
      * apply tensor_shape_facts.dim_most_specific_unknown.
      * apply tensor_shape_facts.most_specific_leaf_unique.
  - split_and!.
    + split; [| intros _; by eexists]. intros _ [H _]. done.
    + intros c [=].
    + apply tensor_shape_facts.dim_most_specific_idem.
    + apply tensor_shape_facts.dim_most_specific_conflict.
    + apply tensor_shape_facts.dim_most_specific_unknown.
    + apply tensor_shape_facts.most_specific_leaf_unique.
Qed.

(** C7, as the claim has it, fails.  Concatenating vectors of any length
    with vectors of three gives vectors of any length.  The shape of
    vectors of three is compatible with the shapes of both inputs and is
    strictly more specific than this output shape, which therefore is not
    the most specific shape compatible with both. *)
Lemma ConcatenateDataset_not_most_specific_compatible :
  Dataset_concatenate example.vectors example.triples
  = Ok (ConcatenateDataset example.vectors example.triples)
  ∧ output_shapes example.vectors = Ok (Leaf (Some [None]))
  ∧ output_shapes example.triples = Ok (Leaf (Some [Some 3%nat]))
  ∧ output_shapes (ConcatenateDataset example.vectors example.triples)
    = Ok (Leaf (Some [None]))
  ∧ tensor_shape.is_compatible_with (Some [Some 3%nat]) (Some [None]) = true
  ∧ tensor_shape.is_compatible_with (Some [Some 3%nat]) (Some [Some 3%nat])
    = true
  ∧ covers (Some [None]) (Some [Some 3%nat])
  ∧ ¬ covers (Some [Some 3%nat]) (Some [None]).
Proof.
  split_and!; try reflexivity.
  - repeat constructor.
  - intros H. inversion H as [|???? [Hd|Hd] _]; discriminate.
Qed.

(** ** BatchDataset *)

(** C8.  The output types of [input.batch(n)] are those of [input]; its
    output shapes have the nesting structure of the shapes of [input],
    and each leaf is the leaf of [input] with one unknown dimension in
    front. *)
Theorem BatchDataset_schema (input : Dataset) (batch_size : scalar_arg)
    (types : nest.t DType) (shapes : nest.t TensorShape) :
  output_types input = Ok types -> output_shapes input = Ok shapes ->
  output_types (Dataset_batch input batch_size) = Ok types
  ∧ exists out,
      output_shapes (Dataset_batch input batch_size) = Ok out ∧
      nest.same_structure shapes out = true ∧
      Forall2 batched_leaf (nest.flatten shapes) (nest.flatten out).
Proof.
  intros Ht Hs. simpl. split; [done |]. rewrite Hs. simpl.
  rewrite nest_facts.pack_sequence_as_map. eexists. split_and!; [done | |].
  - apply nest_facts.same_structure_map.
  - rewrite nest_facts.flatten_map_structure. apply Forall2_fmap_r.
    apply Forall_Forall2_diag, Forall_forall. intros s _.
    apply tensor_shape_facts.concatenate_vector_batched.
Qed.

(** ** Iterator.make_initializer *)

Lemma Forall2_pointwise_iff {A B} (P Q : A -> B -> Prop) (l : list A) (k : list B) :
  (forall x y, P x y <-> Q x y) -> Forall2 P l k <-> Forall2 Q l k.
Proof.
  intros HPQ. split; intros H; (eapply Forall2_impl; [exact H |]);
    intros x y; apply HPQ.
Qed.

Lemma dtype_loop_Ok (l1 l2 : list DType) :
  length l1 = length l2 ->
  for_each (zip l1 l2)
    (fun '(iterator_dtype, dataset_dtype) =>
       if bool_decide (iterator_dtype ≠ dataset_dtype)
       then Raise TypeError else Ok tt) = Ok tt
  <-> Forall2 eq l1 l2.
Proof.
  intros Hlen. rewrite for_each_zip_Ok by done.
  apply Forall2_pointwise_iff. intros x y. simpl.
  destruct (decide (x = y)) as [->|Hne].
  - by rewrite bool_decide_false by (intros ?; done).
  - by rewrite bool_decide_true by done.
Qed.

Lemma shape_loop_Ok (l1 l2 : list TensorShape) :
  length l1 = length l2 ->
  for_each (zip l1 l2)
    (fun '(iterator_shape, dataset_shape) =>
       if negb (tensor_shape.is_compatible_with iterator_shape dataset_shape)
       then Raise TypeError else Ok tt) = Ok tt
  <-> Forall2 (fun iterator_shape dataset_shape =>
                 tensor_shape.is_compatible_with iterator_shape dataset_shape = true)
              l1 l2.
Proof.
  intros Hlen. rewrite for_each_zip_Ok by done.
  apply Forall2_pointwise_iff. intros x y. simpl.
  by destruct (tensor_shape.is_compatible_with x y).
Qed.

(** C6.  For a dataset whose types and shapes can be read:
    [make_initializer] raises exactly when the schema of the dataset is not
    compatible with that of the iterator, that is unless the types and the
    shapes have the nesting structure of the iterator's, every flattened
    dtype equals the iterator's and every flattened shape is compatible
    with the iterator's; with a compatible schema it returns the
    [make_iterator] operation on the dataset and the iterator's resource.
    In both cases the iterator is what it was before the call. *)
Theorem make_initializer_compatible (self : Iterator) (dataset : Dataset)
    (dataset_types : nest.t DType) (dataset_shapes : nest.t TensorShape) :
  output_types dataset = Ok dataset_types ->
  output_shapes dataset = Ok dataset_shapes ->
  (raises (make_initializer self dataset).1 <->
     ¬ schema_compatible (_output_types self) (_output_shapes self)
         dataset_types dataset_shapes)
  ∧ (schema_compatible (_output_types self) (_output_shapes self)
       dataset_types dataset_shapes ->
     (make_initializer self dataset).1
     = Ok (gen_dataset_ops.make_iterator (make_dataset_resource dataset)
             (_iterator_resource self)))
  ∧ (make_initializer self dataset).2 = self
  ∧ _output_types (make_initializer self dataset).2 = _output_types self
  ∧ _output_shapes (make_initializer self dataset).2 = _output_shapes self.
Proof.
  intros Ht Hs. unfold make_initializer, schema_compatible. simpl.
  rewrite Ht. simpl. unfold nest.assert_same_structure.
  destruct (nest.same_structure (_output_types self) dataset_types) eqn:Hst; simpl.
  2: { split_and!; try done.
       - split; [| intros _; by eexists]. by intros _ [? _].
       - by intros [? _]. }
  rewrite Hs. simpl.
  destruct (nest.same_structure (_output_shapes self) dataset_shapes) eqn:Hss; simpl.
  2: { split_and!; try done.
       - split; [| intros _; by eexists]. by intros _ (_ & ? & _).
       - by intros (_ & ? & _). }
  pose proof (dtype_loop_Ok _ _
    (nest_facts.same_structure_flatten_length _ _ Hst)) as Hdt.
  pose proof (shape_loop_Ok _ _
    (nest_facts.same_structure_flatten_length _ _ Hss)) as Hsh.
  destruct (for_each (zip (nest.flatten (_output_types self)) _) _)
    as [[]|e1] eqn:H1; simpl.
  2: { split_and!; try done.
       - split; [| intros _; by eexists]. intros _ (_ & _ & H & _).
         apply Hdt in H. done.
       - intros (_ & _ & H & _). apply Hdt in H. done. }
  destruct (for_each (zip (nest.flatten (_output_shapes self)) _) _)
    as [[]|e2] eqn:H2; simpl.
  2: { split_and!; try done.
       - split; [| intros _; by eexists]. intros _ (_ & _ & _ & H).
         apply Hsh in H. done.
       - intros (_ & _ & _ & H). apply Hsh in H. done. }
  split_and!; try done.
  split; [by intros [e [=]] |]. intros H. exfalso. apply H.
  split_and!; [done | done | by apply Hdt | by apply Hsh].
Qed.

(** ** The predicate of a FilterDataset *)

(** C9, as the code has it.  Once the predicate has returned, its value
    is converted to a tensor of dtype bool.  An exception of that
    conversion leaves [tf_predicate] as it is raised, whatever its kind.
    When the conversion returns a tensor, [tf_predicate] returns that
    tensor, as it is, when it is a scalar boolean (its dtype is bool and
    its shape is compatible with the scalar shape), and raises
    [ValueError] when it is not.  So [tf_predicate] returns only scalar
    booleans that the conversion made, and raises [ValueError] only for a
    tensor that the conversion made or when the conversion raised it. *)
Theorem tf_predicate_after_conversion {PyObj : Type}
    (convert_to_tensor : PyObj -> DType -> result Tensor)
    (input_dataset : Dataset) (predicate : list (nest.t Tensor) -> result PyObj)
    (args : list Tensor) (ret : PyObj) :
  predicate_return input_dataset predicate args = Ok ret ->
  (forall e, convert_to_tensor ret dtypes.bool = Raise e ->
     tf_predicate convert_to_tensor input_dataset predicate args = Raise e)
  ∧ (forall t, convert_to_tensor ret dtypes.bool = Ok t ->
       (scalar_boolean t ->
        tf_predicate convert_to_tensor input_dataset predicate args = Ok t)
       ∧ (¬ scalar_boolean t ->
          tf_predicate convert_to_tensor input_dataset predicate args
          = Raise ValueError)
       ∧ (tf_predicate convert_to_tensor input_dataset predicate args = Ok t
          ∨ tf_predicate convert_to_tensor input_dataset predicate args
            = Raise ValueError))
  ∧ (forall t,
       tf_predicate convert_to_tensor input_dataset predicate args = Ok t ->
       convert_to_tensor ret dtypes.bool = Ok t ∧ scalar_boolean t)
  ∧ (tf_predicate convert_to_tensor input_dataset predicate args
     = Raise ValueError ->
     convert_to_tensor ret dtypes.bool = Raise ValueError
     ∨ exists t, convert_to_tensor ret dtypes.bool = Ok t ∧ ¬ scalar_boolean t).
Proof.
  intros Hret. unfold tf_predicate, scalar_boolean.
  rewrite Hret. cbn [mbind result_bind].
  destruct (convert_to_tensor ret dtypes.bool) as [t|e] eqn:Hconv;
    cbn [mbind result_bind].
  - destruct (decide (dtype t = dtypes.bool)) as [Hd|Hd];
      [rewrite bool_decide_true by done | rewrite bool_decide_false by done];
      cbn [andb];
      [destruct (tensor_shape.is_compatible_with (shape t) tensor_shape.scalar)
         eqn:Hc |];
      cbn [negb]; (split_and!; [by intros e [=] | | |]).
    + intros t' [= <-]. split_and!; auto.
      intros H. exfalso. by apply H.
    + by intros t' [= <-].
    + done.
    + intros t' [= <-]. split_and!; auto. intros [_ ?]. congruence.
    + by intros t' [=].
    + intros _. right. exists t. split; [done |]. intros [_ ?]. congruence.
    + intros t' [= <-]. split_and!; auto. by intros [? _].
    + by intros t' [=].
    + intros _. right. exists t. split; [done |]. by intros [? _].
  - split_and!.
    + by intros e' [= <-].
    + by intros t [=].
    + by intros t [=].
    + intros [= ->]. by left.
Qed.

Lemma tf_predicate_after_conversion_witness :
  predicate_return example.ten example.yes
    [{| dtype := dtypes.int64; shape := tensor_shape.unknown_shape |}]
  = Ok (ops.BoolObj true)
  ∧ tf_predicate ops.convert_to_tensor example.ten example.yes
      [{| dtype := dtypes.int64; shape := tensor_shape.unknown_shape |}]
    = Ok {| dtype := dtypes.bool; shape := tensor_shape.scalar |}.
Proof.
  split; [reflexivity |].
  destruct (tf_predicate_after_conversion ops.convert_to_tensor example.ten
              example.yes
              [{| dtype := dtypes.int64; shape := tensor_shape.unknown_shape |}]
              (ops.BoolObj true) eq_refl) as (_ & Hok & _).
  destruct (Hok {| dtype := dtypes.bool; shape := tensor_shape.scalar |} eq_refl)
    as (Hret & _).
  apply Hret. split; reflexivity.
Defined.

(** C9, as the claim has it, fails.  The predicate [lambda x: 1] returns
    a value that is not a scalar boolean; its conversion to a tensor of
    dtype bool raises [TypeError], and so does [tf_predicate], which does
    not raise [ValueError]. *)
Lemma tf_predicate_int_raises_TypeError :
  predicate_return example.ten example.one
    [{| dtype := dtypes.int64; shape := tensor_shape.unknown_shape |}]
  = Ok (ops.IntObj 1)
  ∧ ops.convert_to_tensor (ops.IntObj 1) dtypes.bool = Raise TypeError
  ∧ tf_predicate ops.convert_to_tensor example.ten example.one
      [{| dtype := dtypes.int64; shape := tensor_shape.unknown_shape |}]
    = Raise TypeError
  ∧ tf_predicate ops.convert_to_tensor example.ten example.one
      [{| dtype := dtypes.int64; shape := tensor_shape.unknown_shape |}]
    ≠ Raise ValueError.
Proof. split_and!; [reflexivity | reflexivity | reflexivity | discriminate]. Qed.

(** ** Python generators as datasets *)

(** The shapes that [from_generator] and [from_structure] work with have
    the structure of the declared types. *)
Lemma declared_shapes_same_structure (output_types : nest.t DType)
    (output_shapes : option (nest.t TensorShape)) (shapes : nest.t TensorShape) :
  declared_shapes output_types output_shapes = Ok shapes ->
  nest.same_structure output_types shapes = true.
Proof.
  destruct output_shapes as [given|]; simpl.
  - unfold nest.map_structure_up_to.
    destruct (nest.flatten_up_to output_types given) as [parts|]; [| done].
    simpl. destruct (sequence (as_shape_arg <$> parts)) as [results|]; [| done].
    simpl. intros Hpack.
    destruct (decide (length (nest.flatten output_types) = length results))
      as [Hlen|Hlen].
    + destruct (nest_facts.pack_sequence_as_ok output_types results Hlen)
        as (p & Hp & _ & Hs). congruence.
    + by rewrite nest_facts.pack_sequence_as_raises in Hpack.
  - intros [= <-]. apply nest_facts.same_structure_map.
Qed.

Section from_generator_facts.

Context {G PyIter PyValue NpDType : Type} `{EqDecision NpDType}.
Variable call_generator : G -> PyIter * G.
Variable next_ : PyIter -> option (nest.t PyValue * PyIter).
Variable _convert : nest.t PyValue -> ndarray NpDType.
Variable as_numpy_dtype : DType -> NpDType.

#[local] Arguments check_component : simpl never.

Lemma get_iterator_registered (iterator_id : Z) (self : _GeneratorState) :
  _iterators (get_iterator call_generator iterator_id self).2 !! iterator_id
  = Some (get_iterator call_generator iterator_id self).1.
Proof.
  unfold get_iterator.
  destruct (_iterators self !! iterator_id) as [it|] eqn:Hit; simpl; [done |].
  destruct (call_generator (_generator self)) as [it g]. simpl.
  apply lookup_insert_eq.
Qed.

Lemma check_component_Ok (ret_array : ndarray NpDType) (expected_dtype : DType)
    (expected_shape : TensorShape) :
  check_component as_numpy_dtype (ret_array, expected_dtype, expected_shape) = Ok tt
  <-> component_ok as_numpy_dtype ret_array expected_dtype expected_shape.
Proof.
  unfold check_component, component_ok.
  destruct (decide (array_dtype ret_array = as_numpy_dtype expected_dtype))
    as [Hd|Hd].
  - rewrite bool_decide_false by (intros ?; done).
    destruct (tensor_shape.is_compatible_with _ _); simpl; split; try done.
    by intros [_ ?].
  - rewrite bool_decide_true by done. split; [done |]. by intros [? _].
Qed.

Lemma check_loop_Ok (arrays : list (ndarray NpDType)) (types : list DType)
    (shapes : list TensorShape) :
  Forall3 (component_ok as_numpy_dtype) arrays types shapes ->
  for_each (zip (zip arrays types) shapes) (check_component as_numpy_dtype)
  = Ok tt.
Proof.
  induction 1 as [|a t s la lt ls Hok _ IH]; simpl; [done |].
  apply check_component_Ok in Hok. by rewrite Hok.
Qed.

Lemma check_loop_Ok_inv (arrays : list (ndarray NpDType)) (types : list DType)
    (shapes : list TensorShape) :
  length arrays = length types -> length types = length shapes ->
  for_each (zip (zip arrays types) shapes) (check_component as_numpy_dtype)
  = Ok tt ->
  Forall3 (component_ok as_numpy_dtype) arrays types shapes.
Proof.
  revert types shapes.
  induction arrays as [|a la IH]; intros [|t lt] [|s ls] H1 H2;
    simplify_eq/=; [constructor |].
  destruct (check_component as_numpy_dtype (a, t, s)) as [[]|e] eqn:Hc;
    simpl; [| done].
  intros Hrest. constructor; [by apply check_component_Ok | by apply IH].
Qed.

(** The first component that fails a check decides the loop. *)
Lemma check_loop_first_failure (pa qa : list (ndarray NpDType))
    (pt qt : list DType) (ps qs : list TensorShape) a t s e :
  Forall3 (component_ok as_numpy_dtype) pa pt ps ->
  check_component as_numpy_dtype (a, t, s) = Raise e ->
  for_each (zip (zip (pa ++ a :: qa) (pt ++ t :: qt)) (ps ++ s :: qs))
           (check_component as_numpy_dtype)
  = Raise e.
Proof.
  intros Hpre Hc. induction Hpre as [|a' t' s' la lt ls Hok _ IH]; simpl.
  - by rewrite Hc.
  - apply check_component_Ok in Hok. by rewrite Hok.
Qed.

(** C1, as the code has it.  When the producer invocation of an
    identifier signals that it is exhausted, the pull raises
    [StopIteration] and the identifier is removed from the registry.  A
    later pull with that identifier does not fail for the missing entry:
    the registry, a [defaultdict], calls the generator again, and the
    pull is a pull on that fresh invocation, which returns its first
    element, converted and checked. *)
Theorem generator_restarts_after_exhaustion (output_types : nest.t DType)
    (output_shapes : nest.t TensorShape) (iterator_id : Z)
    (self : _GeneratorState) :
  next_ (get_iterator call_generator iterator_id self).1 = None ->
  let pull := generator_py_func call_generator next_ _convert as_numpy_dtype
                output_types output_shapes iterator_id in
  let after := (pull self).2 in
  let fresh := (call_generator (_generator after)).1 in
  (pull self).1 = Raise StopIteration
  ∧ _iterators after !! iterator_id = None
  ∧ (get_iterator call_generator iterator_id after).1 = fresh
  ∧ (pull after).1 ≠ Raise KeyError
  ∧ (forall values it',
       next_ fresh = Some (values, it') ->
       (pull after).1
       = converted_and_checked _convert as_numpy_dtype
           output_types output_shapes values).
Proof.
  intros Hnext pull after fresh.
  assert (Hpull : (pull self).1 = Raise StopIteration
                  ∧ _iterators after !! iterator_id = None).
  { subst after pull. unfold generator_py_func.
    pose proof (get_iterator_registered iterator_id self) as Hreg.
    destruct (get_iterator call_generator iterator_id self) as [it self1].
    simpl in Hnext, Hreg. rewrite Hnext. unfold iterator_completed.
    rewrite Hreg. simpl. split; [done | apply lookup_delete_eq]. }
  destruct Hpull as [Hraise Hgone].
  assert (Hget : get_iterator call_generator iterator_id after
            = (fresh, {| _generator := (call_generator (_generator after)).2;
                         _next_id := _next_id after;
                         _iterators := <[iterator_id := fresh]> (_iterators after) |})).
  { unfold get_iterator. rewrite Hgone. subst fresh.
    by destruct (call_generator (_generator after)). }
  split_and!; [done | done | by rewrite Hget | |].
  - subst pull. unfold generator_py_func. rewrite Hget.
    destruct (next_ fresh) as [[values it']|]; simpl.
    + unfold converted_and_checked.
      destruct (nest.flatten_up_to output_types values) as [components|e] eqn:Hf;
        simpl.
      * destruct (for_each_result
          (zip (zip (_convert <$> components) (nest.flatten output_types))
               (nest.flatten output_shapes))
          (check_component as_numpy_dtype)) as [-> | (x & e & _ & Hx & ->)];
          simpl; [done |].
        destruct x as [[a t] s]. unfold check_component in Hx.
        repeat (match type of Hx with
                | (if ?b then _ else _) = _ => destruct b
                end); congruence.
      * intros [= ->]. by apply nest_facts.flatten_up_to_raises in Hf.
    + unfold iterator_completed. simpl. rewrite lookup_insert_eq. done.
  - intros values it' Hfresh. subst pull. unfold generator_py_func.
    rewrite Hget, Hfresh. done.
Qed.

(** C5.  Whatever the state of the registry, that is for every element
    pulled: when the iterator yields [values] and these have the
    structure of the declared types, the converted components are
    checked, in order, against the declared types and shapes.  If all
    pass, the pull returns the converted components as they are, and
    [generator_map_fn] packs them as the declared types.  If the first
    component that fails has another dtype than declared, the pull raises
    [TypeError]; if it has the declared dtype and a shape that is not
    compatible with the declared shape, the pull raises [ValueError].
    [ret_arrays], [TypeError] and [ValueError] are the only outcomes. *)
Theorem generator_py_func_validates (output_types : nest.t DType)
    (output_shapes : nest.t TensorShape) (iterator_id : Z)
    (self : _GeneratorState) (values : nest.t PyValue) (it' : PyIter)
    (components : list (nest.t PyValue)) :
  nest.same_structure output_types output_shapes = true ->
  next_ (get_iterator call_generator iterator_id self).1 = Some (values, it') ->
  nest.flatten_up_to output_types values = Ok components ->
  let ret_arrays := _convert <$> components in
  let flattened_types := nest.flatten output_types in
  let flattened_shapes := nest.flatten output_shapes in
  let outcome := (generator_py_func call_generator next_ _convert as_numpy_dtype
                    output_types output_shapes iterator_id self).1 in
  (outcome = Ok ret_arrays <->
     Forall3 (component_ok as_numpy_dtype)
             ret_arrays flattened_types flattened_shapes)
  ∧ (outcome = Ok ret_arrays ->
     exists packed,
       (generator_map_fn call_generator next_ _convert as_numpy_dtype
          output_types output_shapes iterator_id self).1 = Ok packed
       ∧ nest.flatten packed = ret_arrays
       ∧ nest.same_structure output_types packed = true)
  ∧ (forall pa a qa pt t qt ps s qs,
       ret_arrays = pa ++ a :: qa ->
       flattened_types = pt ++ t :: qt ->
       flattened_shapes = ps ++ s :: qs ->
       Forall3 (component_ok as_numpy_dtype) pa pt ps ->
       (array_dtype a ≠ as_numpy_dtype t -> outcome = Raise TypeError)
       ∧ (array_dtype a = as_numpy_dtype t ->
          tensor_shape.is_compatible_with s
            (tensor_shape.as_shape (array_shape a)) = false ->
          outcome = Raise ValueError))
  ∧ (outcome = Ok ret_arrays ∨ outcome = Raise TypeError
     ∨ outcome = Raise ValueError).
Proof.
  intros Hss Hnext Hflat ret_arrays flattened_types flattened_shapes outcome.
  assert (Hout : outcome
            = (for_each (zip (zip ret_arrays flattened_types) flattened_shapes)
                        (check_component as_numpy_dtype);;
               Ok ret_arrays)).
  { subst outcome. unfold generator_py_func.
    destruct (get_iterator call_generator iterator_id self) as [it self1].
    simpl in Hnext. rewrite Hnext. simpl. unfold converted_and_checked.
    rewrite Hflat. done. }
  assert (Hlen1 : length ret_arrays = length flattened_types).
  { subst ret_arrays flattened_types. rewrite length_fmap.
    by apply (nest_facts.flatten_up_to_length _ values). }
  assert (Hlen2 : length flattened_types = length flattened_shapes).
  { by apply nest_facts.same_structure_flatten_length. }
  split_and!.
  - rewrite Hout. split.
    + intros H. apply check_loop_Ok_inv; [done | done |].
      by destruct (for_each _ _) as [[]|].
    + intros H. by rewrite check_loop_Ok.
  - intros Hok.
    destruct (nest_facts.pack_sequence_as_ok output_types ret_arrays)
      as (packed & Hp & Hf & Hs); [done |].
    exists packed. split_and!; [| done | done].
    unfold generator_map_fn. fold outcome.
    destruct (generator_py_func _ _ _ _ _ _ _ _) as [r self1].
    simpl in outcome. subst outcome. rewrite Hok. done.
  - intros pa a qa pt t qt ps s qs Ha Ht Hs Hpre. rewrite Hout, Ha, Ht, Hs.
    split.
    + intros Hd. erewrite check_loop_first_failure; [done | done |].
      unfold check_component. by rewrite bool_decide_true.
    + intros Hd Hsh. erewrite check_loop_first_failure; [done | done |].
      unfold check_component. rewrite bool_decide_false by (intros ?; done).
      by rewrite Hsh.
  - rewrite Hout.
    destruct (for_each_result (zip (zip ret_arrays flattened_types) flattened_shapes)
      (check_component as_numpy_dtype)) as [-> | (x & e & _ & Hx & ->)];
      simpl; [by left | right].
    destruct x as [[a t] s]. unfold check_component in Hx.
    repeat (match type of Hx with
            | (if ?b then _ else _) = _ => destruct b
            end); simplify_eq; auto.
Qed.

End from_generator_facts.

(** C1, as the claim has it, fails.  The identifier 0 is issued; the
    generator yields 1, 2 and is exhausted; the third pull raises
    [StopIteration] and removes the identifier.  The fourth pull with the
    same identifier returns 1 again, from a fresh call of the generator. *)
Lemma generator_pulled_again_after_exhaustion :
  let issued := get_next_id (_GeneratorState_init (PyIter := list Z) tt) in
  let s1 := (example.pull issued.1 issued.2).2 in
  let s2 := (example.pull issued.1 s1).2 in
  let s3 := (example.pull issued.1 s2).2 in
  issued.1 = 0
  ∧ (example.pull issued.1 s2).1 = Raise StopIteration
  ∧ _iterators s3 !! issued.1 = None
  ∧ (example.pull issued.1 s3).1
    = Ok [{| array_dtype := dtypes.int64; array_shape := [];
             array_data := [IntV 1] |}]
  ∧ (example.pull issued.1 s3).1 ≠ Raise KeyError.
Proof. vm_compute. split_and!; done. Qed.

Lemma generator_restarts_after_exhaustion_witness :
  let s2 := (example.pull 0 (example.pull 0 (_GeneratorState_init tt)).2).2 in
  example.next_ (get_iterator example.call_generator 0 s2).1 = None
  ∧ (example.pull 0 s2).1 = Raise StopIteration
  ∧ _iterators (example.pull 0 s2).2 !! 0 = None.
Proof.
  intros s2.
  assert (H : example.next_ (get_iterator example.call_generator 0 s2).1 = None)
    by (vm_compute; reflexivity).
  split; [exact H |].
  pose proof (generator_restarts_after_exhaustion example.call_generator
    example.next_ example._convert example.as_numpy_dtype
    (Leaf dtypes.int64) (Leaf tensor_shape.scalar) 0 s2 H) as [H1 [H2 _]].
  split; [exact H1 | exact H2].
Defined.

Lemma generator_py_func_validates_witness :
  nest.same_structure (Leaf dtypes.int64) (Leaf tensor_shape.scalar) = true
  ∧ example.next_ (get_iterator example.call_generator 0 (_GeneratorState_init tt)).1
    = Some (Leaf 1, [2])
  ∧ nest.flatten_up_to (Leaf dtypes.int64) (Leaf 1) = Ok [Leaf 1]
  ∧ (example.pull 0 (_GeneratorState_init tt)).1
    = Ok [{| array_dtype := dtypes.int64; array_shape := [];
             array_data := [IntV 1] |}].
Proof.
  split_and!; [reflexivity | reflexivity | reflexivity |].
  destruct (generator_py_func_validates example.call_generator example.next_
              example._convert example.as_numpy_dtype
              (Leaf dtypes.int64) (Leaf tensor_shape.scalar) 0
              (_GeneratorState_init tt) (Leaf 1) [2] [Leaf 1]
              eq_refl eq_refl eq_refl) as (Hiff & _).
  apply Hiff. repeat constructor.
Defined.

Lemma make_initializer_compatible_witness :
  output_types example.ten = Ok (Leaf dtypes.int64)
  ∧ output_shapes example.ten = Ok (Leaf tensor_shape.scalar)
  ∧ (make_initializer example.scalar_ints example.ten).1
    = Ok (gen_dataset_ops.make_iterator example.ten
            (_iterator_resource example.scalar_ints))
  ∧ (make_initializer example.scalar_ints example.ten).2 = example.scalar_ints.
Proof.
  split_and!; [reflexivity | reflexivity | |];
    destruct (make_initializer_compatible example.scalar_ints example.ten
                (Leaf dtypes.int64) (Leaf tensor_shape.scalar)
                eq_refl eq_refl) as (_ & Hok & Hself & _).
  - apply Hok. unfold schema_compatible.
    split_and!; [reflexivity | reflexivity | |]; repeat constructor.
  - exact Hself.
Defined.

Lemma ConcatenateDataset_schema_witness :
  output_types example.ten = Ok (Leaf dtypes.int64)
  ∧ output_shapes example.ten = Ok (Leaf tensor_shape.scalar)
  ∧ nest.same_structure (Leaf dtypes.int64) (Leaf tensor_shape.scalar) = true
  ∧ Dataset_concatenate example.ten example.ten
    = Ok (ConcatenateDataset example.ten example.ten)
  ∧ output_types (ConcatenateDataset example.ten example.ten)
    = Ok (Leaf dtypes.int64)
  ∧ exists sc,
      output_shapes (ConcatenateDataset example.ten example.ten) = Ok sc
      ∧ Forall3 most_specific_leaf [tensor_shape.scalar] [tensor_shape.scalar]
                (nest.flatten sc).
Proof.
  split_and!; [reflexivity | reflexivity | reflexivity | reflexivity | |];
    destruct (ConcatenateDataset_schema example.ten example.ten
                (Leaf dtypes.int64) (Leaf dtypes.int64)
                (Leaf tensor_shape.scalar) (Leaf tensor_shape.scalar)
                eq_refl eq_refl eq_refl eq_refl eq_refl eq_refl)
      as (_ & Hc & _);
    destruct (Hc _ eq_refl) as (Ht & sc & Hsc & _ & Hleaves).
  - exact Ht.
  - exists sc. split; [exact Hsc | exact Hleaves].
Defined.

Lemma BatchDataset_schema_witness :
  output_types example.ten = Ok (Leaf dtypes.int64)
  ∧ output_shapes example.ten = Ok (Leaf tensor_shape.scalar)
  ∧ output_types (Dataset_batch example.ten (Static 4)) = Ok (Leaf dtypes.int64)
  ∧ exists out,
      output_shapes (Dataset_batch example.ten (Static 4)) = Ok out
      ∧ nest.same_structure (Leaf tensor_shape.scalar) out = true
      ∧ Forall2 batched_leaf [tensor_shape.scalar] (nest.flatten out).
Proof.
  split_and!; [reflexivity | reflexivity | |];
    destruct (BatchDataset_schema example.ten (Static 4)
                (Leaf dtypes.int64) (Leaf tensor_shape.scalar)
                eq_refl eq_refl) as (Ht & Hout).
  - exact Ht.
  - exact Hout.
Defined.

(** ** Dataset.shard as enumerate, filter, project *)

Lemma range_values_positions :
  kernels.range_values 0 max_value 1 = seqZ 0 max_value.
Proof.
  unfold kernels.range_values.
  replace (kernels.range_length 0 max_value 1) with max_value
    by (vm_compute; reflexivity).
  rewrite <- (list_fmap_id (seqZ 0 max_value)) at 2.
  apply list_fmap_ext. intros _ k _. simpl. lia.
Qed.

(** Zipping the positions with a dataset that is not longer than the
    range of positions enumerates the dataset from 0. *)
Lemma zip_elements_enumerate (xs : list element) :
  Z.of_nat (length xs) <= max_value ->
  kernels.zip_elements
    (Node CTuple
       [Leaf ((fun i => Leaf (IntV i)) <$> kernels.range_values 0 max_value 1);
        Leaf xs])
  = imap (fun i x => Node CTuple [Leaf (IntV (Z.of_nat i)); x]) xs.
Proof.
  intros Hlen. rewrite range_values_positions.
  assert (Hpos : forall i : nat, (i < length xs)%nat ->
            ((fun i => Leaf (IntV i)) <$> seqZ 0 max_value) !! i
            = Some (Leaf (IntV (Z.of_nat i)) : element)).
  { intros i Hi. rewrite list_lookup_fmap, lookup_seqZ_lt by lia. done. }
  assert (Hrs : length ((fun i => Leaf (IntV i) : element) <$> seqZ 0 max_value)
                = Z.to_nat max_value).
  { by rewrite length_fmap, length_seqZ. }
  remember ((fun i => Leaf (IntV i) : element) <$> seqZ 0 max_value) as rs eqn:E.
  clear E. unfold kernels.zip_elements.
  cbn [nest.flatten List.map concat app kernels.min_length foldr].
  rewrite Hrs.
  replace (Nat.min (length xs) (Z.to_nat max_value)) with (length xs) by lia.
  apply list_eq. intros i.
  rewrite list_lookup_fmap, list_lookup_imap.
  destruct (xs !! i) as [x|] eqn:Hx.
  - pose proof (lookup_lt_Some _ _ _ Hx) as Hi.
    rewrite lookup_seq_lt by lia.
    cbn [fmap option_fmap option_map nest.map_structure List.map nest.join plus].
    rewrite Hpos by lia. rewrite Hx. done.
  - apply lookup_ge_None in Hx. by rewrite lookup_seq_ge by lia.
Qed.

Lemma filter_fn_position (num_shards index : scalar_arg) (p : Z) (x : element) :
  run_value num_shards ≠ 0 ->
  call_unpacked (filter_fn num_shards index) (Node CTuple [Leaf (IntV p); x])
  = Ok (Leaf (BoolV (bool_decide
                       (Z.modulo p (run_value num_shards) = run_value index)))).
Proof.
  intros Hns. simpl. by rewrite bool_decide_false.
Qed.

Lemma filter_elements_enumerated (num_shards index : scalar_arg)
    (xs : list element) (pos : nat -> Z) :
  run_value num_shards ≠ 0 ->
  kernels.filter_elements (filter_fn num_shards index)
    (imap (fun i x => Node CTuple [Leaf (IntV (pos i)); x]) xs)
  = Ok ((fun p => Node CTuple [Leaf (IntV p.1); p.2])
          <$> filter (fun p => Z.modulo p.1 (run_value num_shards) = run_value index)
                     (imap (fun i x => (pos i, x)) xs)).
Proof.
  intros Hns. revert pos. induction xs as [|x xs IH]; intros pos; [done |].
  cbn [imap kernels.filter_elements].
  rewrite filter_fn_position by done. cbn [mbind result_bind].
  change (kernels.filter_elements (filter_fn num_shards index)
            (imap (fun i x => Node CTuple [Leaf (IntV ((pos ∘ S) i)); x]) xs)
          ≫= (fun kept =>
                Ok (if bool_decide (pos 0%nat `mod` run_value num_shards
                                    = run_value index)
                    then Node CTuple [Leaf (IntV (pos 0%nat)); x] :: kept
                    else kept)) = 
          Ok ((fun p => Node CTuple [Leaf (IntV p.1); p.2])
          <$> filter (fun p => Z.modulo p.1 (run_value num_shards) = run_value index)
                     ((pos 0%nat, x) :: imap (fun i x => ((pos ∘ S) i, x)) xs))).
  rewrite IH. simpl. rewrite filter_cons. simpl.
  case_bool_decide as Hp.
  - by rewrite decide_True.
  - by rewrite decide_False.
Qed.

Lemma map_elements_project (l : list (Z * element)) :
  kernels.map_elements second_of_two
    ((fun p => Node CTuple [Leaf (IntV p.1); p.2]) <$> l)
  = Ok (snd <$> l).
Proof.
  unfold kernels.map_elements. induction l as [|[p x] l IH]; [done |].
  rewrite !fmap_cons. cbn [sequence]. rewrite IH. done.
Qed.

Lemma Dataset_shard_valid (self : Dataset) (num_shards index : scalar_arg) :
  1 <= run_value num_shards ->
  0 <= run_value index < run_value num_shards ->
  Dataset_shard self num_shards index
  = Ok (Dataset_map
          (Dataset_filter
             (Dataset_zip
                (Node CTuple
                   [Leaf (RangeDataset (Static 0) (Static max_value) (Static 1));
                    Leaf self]))
             (filter_fn num_shards index))
          {| trace := second_of_two; call := second_of_two |}
          None None None).
Proof.
  intros Hns Hidx. unfold Dataset_shard.
  destruct num_shards as [n|n], index as [i|i];
    cbn [tensor_util.constant_value run_value] in *;
    rewrite ?bool_decide_false by lia; reflexivity.
Qed.

(** C4.  For a dataset that yields [xs], not more than the positions of
    an int64 range, and a valid pair [num_shards >= 1], [0 <= index <
    num_shards]: [shard] returns the map node, which projects to the bare
    element, of the filter node with [filter_fn], of the enumeration of
    the dataset, the zip of the range from 0 with it.  The enumeration
    yields the elements with their 0-based positions, and the returned
    pipeline yields the elements of [xs] whose position is [index] modulo
    [num_shards], in their order. *)
Theorem Dataset_shard_enumerate_filter_project (self : Dataset)
    (num_shards index : scalar_arg) (xs : list element) :
  elements self = Ok xs ->
  Z.of_nat (length xs) <= max_value ->
  1 <= run_value num_shards ->
  0 <= run_value index < run_value num_shards ->
  exists enumerated sharded,
    _enumerate self 0 = Ok enumerated
    ∧ enumerated
      = Dataset_zip
          (Node CTuple
             [Leaf (RangeDataset (Static 0) (Static max_value) (Static 1));
              Leaf self])
    ∧ elements enumerated
      = Ok (imap (fun i x => Node CTuple [Leaf (IntV (Z.of_nat i)); x]) xs)
    ∧ Dataset_shard self num_shards index = Ok sharded
    ∧ sharded
      = Dataset_map
          (Dataset_filter enumerated (filter_fn num_shards index))
          {| trace := second_of_two; call := second_of_two |}
          None None None
    ∧ elements sharded
      = Ok (shard_spec (run_value num_shards) (run_value index) xs).
Proof.
  intros Hxs Hlen Hns Hidx.
  assert (Henum : elements
            (Dataset_zip
               (Node CTuple
                  [Leaf (RangeDataset (Static 0) (Static max_value) (Static 1));
                   Leaf self]))
          = Ok (imap (fun i x => Node CTuple [Leaf (IntV (Z.of_nat i)); x]) xs)).
  { cbn [elements Dataset_zip nest.mapM run_value mbind result_bind].
    rewrite bool_decide_false by done. rewrite Hxs.
    cbn [mbind result_bind]. by rewrite zip_elements_enumerate. }
  exists (Dataset_zip
            (Node CTuple
               [Leaf (RangeDataset (Static 0) (Static max_value) (Static 1));
                Leaf self])).
  eexists. split_and!; [reflexivity | reflexivity | exact Henum | | reflexivity |].
  - by apply Dataset_shard_valid.
  - change (elements (Dataset_map (Dataset_filter ?d ?f) ?m None None None))
      with ((elements d ≫= kernels.filter_elements f)
            ≫= kernels.map_elements (call m)).
    rewrite Henum. cbn [mbind result_bind].
    rewrite filter_elements_enumerated by lia. cbn [mbind result_bind call].
    rewrite map_elements_project. done.
Qed.

Lemma Dataset_shard_enumerate_filter_project_witness :
  elements example.letters
  = Ok [Leaf (StrV "a"); Leaf (StrV "b"); Leaf (StrV "c");
        Leaf (StrV "d"); Leaf (StrV "e")]
  ∧ exists sharded,
      Dataset_shard example.letters (Static 3) (Dynamic 1) = Ok sharded
      ∧ elements sharded = Ok [Leaf (StrV "b"); Leaf (StrV "e")].
Proof.
  split; [reflexivity |].
  destruct (Dataset_shard_enumerate_filter_project example.letters
              (Static 3) (Dynamic 1)
              [Leaf (StrV "a"); Leaf (StrV "b"); Leaf (StrV "c");
               Leaf (StrV "d"); Leaf (StrV "e")])
    as (enumerated & sharded & _ & _ & _ & Hs & _ & He);
    [reflexivity | vm_compute; discriminate | simpl; lia | simpl; lia |].
  exists sharded. split; [exact Hs | exact He].
Defined.

(** ** The examples of the docstrings *)

Example range_5 : kernels.range_values 0 5 1 = [0; 1; 2; 3; 4].
Proof. reflexivity. Qed.

Example range_2_5 : kernels.range_values 2 5 1 = [2; 3; 4].
Proof. reflexivity. Qed.

Example range_1_5_2 : kernels.range_values 1 5 2 = [1; 3].
Proof. reflexivity. Qed.

Example range_1_5_minus_2 : kernels.range_values 1 5 (-2) = [].
Proof. reflexivity. Qed.

Example range_5_1 : kernels.range_values 5 1 1 = [].
Proof. reflexivity. Qed.

Example range_5_1_minus_2 : kernels.range_values 5 1 (-2) = [5; 3].
Proof. reflexivity. Qed.

Example zip_shortest :
  elements (Dataset_zip (Node CTuple
              [Leaf (RangeDataset (Static 1) (Static 4) (Static 1));
               Leaf (RangeDataset (Static 13) (Static 15) (Static 1))]))
  = Ok [Node CTuple [Leaf (IntV 1); Leaf (IntV 13)];
        Node CTuple [Leaf (IntV 2); Leaf (IntV 14)]].
Proof. reflexivity. Qed.

Example concatenate_other_type :
  Dataset_concatenate example.ten example.floats = Raise TypeError.
Proof. reflexivity. Qed.

Example concatenate_other_structure :
  Dataset_concatenate example.ten
    (Dataset_zip (Node CTuple [Leaf example.ten; Leaf example.ten]))
  = Raise StructureMismatch.
Proof. reflexivity. Qed.

Example concatenate_widens :
  tensor_shape.most_specific_compatible_shape
    (Some [Some 2; Some 1]%nat) (Some [Some 5; Some 1]%nat)
  = Some [None; Some 1%nat].
Proof. reflexivity. Qed.

Example batch_of_pairs :
  output_shapes
    (Dataset_batch
       (Dataset_zip (Node CTuple [Leaf example.ten; Leaf example.letters]))
       (Static 4))
  = Ok (Node CTuple [Leaf (Some [None]); Leaf (Some [None])]).
Proof. reflexivity. Qed.

Example make_initializer_other_type :
  (make_initializer example.scalar_ints example.floats).1 = Raise TypeError.
Proof. reflexivity. Qed.

Example from_structure_scalar_ints :
  Iterator_from_structure (Leaf dtypes.int64) (Some (Leaf tensor_shape.scalar)) None
  = Ok example.scalar_ints.
Proof. reflexivity. Qed.

Example from_structure_empty_tuple :
  Iterator_from_structure (Leaf dtypes.int64) (Some (Node CTuple [])) None
  = Ok example.scalar_ints.
Proof. reflexivity. Qed.

Example concatenate_known_with_unknown :
  tensor_shape.most_specific_compatible_shape (Some [None]) (Some [Some 3%nat])
  = Some [None]
  ∧ tensor_shape.most_specific_compatible_shape
      (Some [Some 3%nat]) tensor_shape.unknown_shape
    = tensor_shape.unknown_shape
  ∧ tensor_shape.most_specific_compatible_shape
      (Some [Some 3%nat]) (Some [Some 3%nat; Some 1%nat])
    = tensor_shape.unknown_shape.
Proof. split_and!; reflexivity. Qed.

Example shard_of_ten :
  (sharded ← Dataset_shard example.ten (Static 3) (Static 1); elements sharded)
  = Ok [Leaf (IntV 1); Leaf (IntV 4); Leaf (IntV 7)].
Proof.
  rewrite Dataset_shard_valid by (simpl; lia).
  cbn [mbind result_bind].
  change (elements (Dataset_map (Dataset_filter ?d ?f) ?m None None None))
    with ((elements d ≫= kernels.filter_elements f)
          ≫= kernels.map_elements (call m)).
  cbn [elements Dataset_zip nest.mapM run_value mbind result_bind example.ten].
  rewrite !bool_decide_false by done. cbn [mbind result_bind].
  rewrite zip_elements_enumerate by (vm_compute; discriminate).
  reflexivity.
Qed.

(** * Further properties *)

(** ** The registry of generators *)

Section registry_facts.

Context {G PyIter PyValue NpDType : Type} `{EqDecision NpDType}.
Variable call_generator : G -> PyIter * G.
Variable next_ : PyIter -> option (nest.t PyValue * PyIter).
Variable _convert : nest.t PyValue -> ndarray NpDType.
Variable as_numpy_dtype : DType -> NpDType.

Lemma issue_spec (n : nat) (self : @_GeneratorState G PyIter) :
  (issue n self).1 = seqZ (_next_id self) (Z.of_nat n)
  ∧ _next_id (issue n self).2 = _next_id self + Z.of_nat n
  ∧ _iterators (issue n self).2 = _iterators self
  ∧ _generator (issue n self).2 = _generator self.
Proof.
  revert self. induction n as [|n IH]; intros self.
  - simpl. split_and!; [done | lia | done | done].
  - cbn [issue get_next_id].
    specialize (IH {| _generator := _generator self;
                      _next_id := _next_id self + 1;
                      _iterators := _iterators self |}).
    destruct (issue n _) as [ids self'] eqn:Hissue.
    cbn [fst snd _next_id _iterators _generator] in *.
    destruct IH as (Hids & Hnext & Hits & Hgen).
    split_and!; [| lia | done | done].
    rewrite Hids. rewrite (seqZ_cons _ (Z.of_nat (S n))) by lia.
    f_equal. f_equal; lia.
Qed.

(** X1.  [n] calls of [get_next_id] return the [n] consecutive integers
    from the counter on, in increasing order: no identifier is issued
    twice, and none that an earlier call has issued.  The calls leave the
    registered iterators and the generator as they are. *)
Theorem get_next_id_issues_fresh (n : nat) (self : @_GeneratorState G PyIter) :
  (issue n self).1 = seqZ (_next_id self) (Z.of_nat n)
  ∧ NoDup (issue n self).1
  ∧ Forall (fun id => _next_id self <= id < _next_id (issue n self).2)
           (issue n self).1
  ∧ (forall m, Forall (fun id => id ∉ (issue n self).1)
                      (issue m (issue n self).2).1)
  ∧ _iterators (issue n self).2 = _iterators self
  ∧ _generator (issue n self).2 = _generator self.
Proof.
  destruct (issue_spec n self) as (Hids & Hnext & Hits & Hgen).
  split_and!; [done | | | | done | done].
  - rewrite Hids. apply NoDup_seqZ.
  - rewrite Hids, Hnext. apply Forall_forall. intros id Hid.
    apply elem_of_seqZ in Hid. lia.
  - intros m. destruct (issue_spec m (issue n self).2) as (Hm & _).
    rewrite Hm, Hids, Hnext. apply Forall_forall. intros id Hid Hid'.
    apply elem_of_seqZ in Hid. apply elem_of_seqZ in Hid'. lia.
Qed.

(** X2.  The registry creates the iterator of an identifier on its first
    access, by one call of the generator, and keeps it: after any access
    the identifier is registered with the iterator that was returned, a
    second access returns the same iterator and changes nothing, and the
    entries of the other identifiers are untouched.  The generator is called
    only when the identifier is not registered. *)
Theorem get_iterator_creates_once (iterator_id other : Z)
    (self : @_GeneratorState G PyIter) :
  let first := get_iterator call_generator iterator_id self in
  _iterators first.2 !! iterator_id = Some first.1
  ∧ get_iterator call_generator iterator_id first.2 = first
  ∧ (other ≠ iterator_id ->
     _iterators first.2 !! other = _iterators self !! other)
  ∧ (is_Some (_iterators self !! iterator_id) -> first.2 = self)
  ∧ (_iterators self !! iterator_id = None ->
     first.1 = (call_generator (_generator self)).1
     ∧ _generator first.2 = (call_generator (_generator self)).2)
  ∧ _next_id first.2 = _next_id self.
Proof.
  intros first. subst first. unfold get_iterator.
  destruct (_iterators self !! iterator_id) as [it|] eqn:Hit.
  - cbn [fst snd]. rewrite Hit. split_and!; try done.
  - destruct (call_generator (_generator self)) as [it g] eqn:Hcall.
    cbn [fst snd _iterators _generator _next_id].
    rewrite lookup_insert_eq. split_and!; try done.
    intros Hne. by rewrite lookup_insert_ne.
Qed.

(** X3.  [iterator_completed] of an identifier that is not registered
    raises [KeyError] and changes nothing.  Of a registered identifier it
    removes the entry of that identifier and no other, and leaves the
    counter of identifiers and the generator as they are. *)
Theorem iterator_completed_removes_one (iterator_id other : Z)
    (self : @_GeneratorState G PyIter) :
  (_iterators self !! iterator_id = None ->
   iterator_completed iterator_id self = (Raise KeyError, self))
  ∧ (is_Some (_iterators self !! iterator_id) ->
     (iterator_completed iterator_id self).1 = Ok tt
     ∧ _iterators (iterator_completed iterator_id self).2 !! iterator_id = None
     ∧ (other ≠ iterator_id ->
        _iterators (iterator_completed iterator_id self).2 !! other
        = _iterators self !! other)
     ∧ _next_id (iterator_completed iterator_id self).2 = _next_id self
     ∧ _generator (iterator_completed iterator_id self).2 = _generator self).
Proof.
  unfold iterator_completed. split.
  - by intros ->.
  - intros [it ->]. cbn [fst snd _iterators _next_id _generator].
    split_and!; try done.
    + apply lookup_delete_eq.
    + intros Hne. by apply lookup_delete_ne.
Qed.

Lemma generator_py_func_state (output_types : nest.t DType)
    (output_shapes : nest.t TensorShape) (iterator_id : Z)
    (self : @_GeneratorState G PyIter) :
  let got := get_iterator call_generator iterator_id self in
  let after := (generator_py_func call_generator next_ _convert as_numpy_dtype
                  output_types output_shapes iterator_id self).2 in
  _next_id after = _next_id self
  ∧ _generator after = _generator got.2
  ∧ _iterators after
    = match next_ got.1 with
      | Some (_, it') => <[iterator_id := it']> (_iterators got.2)
      | None => delete iterator_id (_iterators got.2)
      end.
Proof.
  intros got after. subst got after. unfold generator_py_func.
  pose proof (get_iterator_registered call_generator iterator_id self) as Hreg.
  assert (Hn : _next_id (get_iterator call_generator iterator_id self).2
               = _next_id self).
  { unfold get_iterator. destruct (_iterators self !! iterator_id); [done |].
    by destruct (call_generator (_generator self)). }
  destruct (get_iterator call_generator iterator_id self) as [it self1].
  cbn [fst snd] in *.
  destruct (next_ it) as [[values it']|].
  - cbn [fst snd _next_id _generator _iterators]. done.
  - unfold iterator_completed. rewrite Hreg.
    cbn [fst snd _next_id _generator _iterators]. done.
Qed.

(** X5.  When the iterator of the identifier yields an element, the pull
    advances that iterator by this one element whatever becomes of the
    element: also when its conversion or a check raises, the registry
    holds the iterator after the element.  If the identifier was
    registered before, the pull does not call the generator. *)
Theorem generator_py_func_consumes (output_types : nest.t DType)
    (output_shapes : nest.t TensorShape) (iterator_id : Z)
    (self : @_GeneratorState G PyIter) (values : nest.t PyValue) (it' : PyIter) :
  next_ (get_iterator call_generator iterator_id self).1 = Some (values, it') ->
  let pulled := generator_py_func call_generator next_ _convert as_numpy_dtype
                  output_types output_shapes iterator_id self in
  _iterators pulled.2 !! iterator_id = Some it'
  ∧ pulled.1 = converted_and_checked _convert as_numpy_dtype
                 output_types output_shapes values
  ∧ (is_Some (_iterators self !! iterator_id) ->
     _generator pulled.2 = _generator self).
Proof.
  intros Hnext pulled.
  destruct (generator_py_func_state output_types output_shapes iterator_id self)
    as (_ & Hgen & Hits).
  fold pulled in Hgen, Hits. rewrite Hnext in Hits. split_and!.
  - rewrite Hits. apply lookup_insert_eq.
  - subst pulled. unfold generator_py_func.
    destruct (get_iterator call_generator iterator_id self) as [it self1].
    cbn [fst] in Hnext. by rewrite Hnext.
  - intros [it Hit]. rewrite Hgen. unfold get_iterator. by rewrite Hit.
Qed.

Lemma converted_and_checked_raises (output_types : nest.t DType)
    (output_shapes : nest.t TensorShape) (values : nest.t PyValue) (e : exn) :
  converted_and_checked _convert as_numpy_dtype output_types output_shapes values
  = Raise e ->
  e = StructureMismatch
  ∨ exists a t s,
      (a, t, s) ∈ zip (zip (_convert <$> default [] (match nest.flatten_up_to output_types values with Ok c => Some c | Raise _ => None end))
                           (nest.flatten output_types))
                      (nest.flatten output_shapes)
      ∧ check_component as_numpy_dtype (a, t, s) = Raise e.
Proof.
  unfold converted_and_checked.
  destruct (nest.flatten_up_to output_types values) as [components|e'] eqn:Hf;
    cbn [mbind result_bind].
  - cbn [default].
    destruct (for_each_result
      (zip (zip (_convert <$> components) (nest.flatten output_types))
           (nest.flatten output_shapes))
      (check_component as_numpy_dtype)) as [-> | (x & e' & Hin & Hx & ->)];
      cbn [mbind result_bind]; [done |].
    intros [= ->]. right. destruct x as [[a t] s]. by exists a, t, s.
  - intros [= ->]. left. by apply nest_facts.flatten_up_to_raises in Hf.
Qed.

(** X6.  When [from_generator] is given no [output_shapes], no pulled
    element is rejected for its shape: a pull never raises [ValueError]. *)
Theorem generator_py_func_unconstrained (output_types : nest.t DType)
    (output_shapes : nest.t TensorShape) (iterator_id : Z)
    (self : @_GeneratorState G PyIter) :
  declared_shapes output_types None = Ok output_shapes ->
  (generator_py_func call_generator next_ _convert as_numpy_dtype
     output_types output_shapes iterator_id self).1 ≠ Raise ValueError.
Proof.
  intros [= <-]. unfold generator_py_func.
  pose proof (get_iterator_registered call_generator iterator_id self) as Hreg.
  destruct (get_iterator call_generator iterator_id self) as [it self1].
  cbn [fst snd] in Hreg.
  destruct (next_ it) as [[values it']|].
  - cbn [fst]. intros Hraise.
    apply converted_and_checked_raises in Hraise
      as [? | (a & t & s & Hin & Hcheck)]; [done |].
    apply elem_of_zip_r in Hin.
    rewrite nest_facts.flatten_map_structure in Hin.
    apply list_elem_of_fmap in Hin as (? & -> & _).
    unfold check_component in Hcheck. case_bool_decide; [done |].
    by cbn in Hcheck.
  - unfold iterator_completed. rewrite Hreg. cbn. done.
Qed.

End registry_facts.

Lemma generator_py_func_consumes_witness :
  let pulled :=
    generator_py_func example.call_generator example.next_ example._convert
      example.as_numpy_dtype (Leaf dtypes.float32) (Leaf tensor_shape.scalar)
      0 (_GeneratorState_init tt) in
  example.next_ (get_iterator example.call_generator 0 (_GeneratorState_init tt)).1
  = Some (Leaf 1, [2])
  ∧ pulled.1 = Raise TypeError
  ∧ _iterators pulled.2 !! 0 = Some [2].
Proof.
  intros pulled. split_and!; [reflexivity | reflexivity |].
  apply (generator_py_func_consumes example.call_generator example.next_
           example._convert example.as_numpy_dtype
           (Leaf dtypes.float32) (Leaf tensor_shape.scalar) 0
           (_GeneratorState_init tt) (Leaf 1) [2] eq_refl).
Defined.

Lemma generator_py_func_unconstrained_witness :
  declared_shapes (Leaf dtypes.int64) None = Ok (Leaf tensor_shape.unknown_shape)
  ∧ (generator_py_func example.call_generator example.next_ example._convert
       example.as_numpy_dtype (Leaf dtypes.int64)
       (Leaf tensor_shape.unknown_shape) 0 (_GeneratorState_init tt)).1
    ≠ Raise ValueError.
Proof.
  split; [reflexivity |].
  apply (generator_py_func_unconstrained example.call_generator example.next_
           example._convert example.as_numpy_dtype
           (Leaf dtypes.int64) (Leaf tensor_shape.unknown_shape) 0
           (_GeneratorState_init tt) eq_refl).
Defined.

(** ** Iterators *)

Lemma dims_compatible_refl (l : list Dimension) :
  tensor_shape.dims_compatible l l = true.
Proof.
  induction l as [|d l IH]; [done |]. simpl.
  by rewrite tensor_shape_facts.dim_is_compatible_with_refl, IH.
Qed.

Lemma is_compatible_with_refl (s : TensorShape) :
  tensor_shape.is_compatible_with s s = true.
Proof. destruct s as [l|]; [apply dims_compatible_refl | done]. Qed.

(** A compatible schema is accepted. *)
Lemma make_initializer_accepts (self : Iterator) (dataset : Dataset)
    (dataset_types : nest.t DType) (dataset_shapes : nest.t TensorShape) :
  output_types dataset = Ok dataset_types ->
  output_shapes dataset = Ok dataset_shapes ->
  schema_compatible (_output_types self) (_output_shapes self)
    dataset_types dataset_shapes ->
  (make_initializer self dataset).1
  = Ok (gen_dataset_ops.make_iterator (make_dataset_resource dataset)
          (_iterator_resource self)).
Proof.
  intros Ht Hs (Hst & Hss & Hdt & Hsh). unfold make_initializer. cbn [fst].
  rewrite Ht. cbn [mbind result_bind]. unfold nest.assert_same_structure.
  rewrite Hst. cbn [mbind result_bind]. rewrite Hs. cbn [mbind result_bind].
  rewrite Hss. cbn [mbind result_bind].
  apply (dtype_loop_Ok _ _ (nest_facts.same_structure_flatten_length _ _ Hst))
    in Hdt.
  apply (shape_loop_Ok _ _ (nest_facts.same_structure_flatten_length _ _ Hss))
    in Hsh.
  rewrite Hdt. cbn [mbind result_bind]. rewrite Hsh. done.
Qed.

(** X7.  An iterator that [Iterator.from_dataset] (or
    [make_initializable_iterator]) builds for a dataset whose schema can be
    read has the schema of the dataset and an initializer, the
    [make_iterator] operation on that dataset; and [make_initializer] with
    the same dataset is always accepted and returns that same operation. *)
Theorem from_dataset_reinitializes (dataset : Dataset)
    (shared_name : option String.string)
    (types : nest.t DType) (shapes : nest.t TensorShape) :
  output_types dataset = Ok types ->
  output_shapes dataset = Ok shapes ->
  exists it,
    make_initializable_iterator dataset shared_name = Ok it
    ∧ _output_types it = types
    ∧ _output_shapes it = shapes
    ∧ initializer it
      = Ok (gen_dataset_ops.make_iterator dataset (_iterator_resource it))
    ∧ (make_initializer it dataset).1 = initializer it.
Proof.
  intros Ht Hs. unfold make_initializable_iterator, Iterator_from_dataset.
  rewrite Ht, Hs. cbn [mbind result_bind]. eexists.
  split_and!; [reflexivity | reflexivity | reflexivity | reflexivity |].
  erewrite make_initializer_accepts; [reflexivity | exact Ht | exact Hs |].
  cbn [_output_types _output_shapes]. unfold schema_compatible. split_and!.
  - apply nest_facts.same_structure_refl.
  - apply nest_facts.same_structure_refl.
  - by apply list_eq_Forall2.
  - apply Forall_Forall2_diag, Forall_forall. intros s _.
    apply is_compatible_with_refl.
Qed.

Lemma from_dataset_reinitializes_witness :
  output_types example.ten = Ok (Leaf dtypes.int64)
  ∧ output_shapes example.ten = Ok (Leaf tensor_shape.scalar)
  ∧ exists it,
      make_initializable_iterator example.ten None = Ok it
      ∧ (make_initializer it example.ten).1 = initializer it.
Proof.
  split_and!; [reflexivity | reflexivity |].
  destruct (from_dataset_reinitializes example.ten None
              (Leaf dtypes.int64) (Leaf tensor_shape.scalar) eq_refl eq_refl)
    as (it & Hit & _ & _ & _ & Hre).
  exists it. split; [exact Hit | exact Hre].
Defined.

(** X8.  [Iterator.from_structure] without [output_shapes] never raises.
    The iterator it returns has no initializer, so that its [initializer]
    property raises [ValueError], and it accepts every dataset that has the
    declared types and shapes of their structure, whatever these shapes
    are: [make_initializer] returns the [make_iterator] operation. *)
Theorem from_structure_unconstrained (types : nest.t DType)
    (shared_name : option String.string) (dataset : Dataset)
    (shapes : nest.t TensorShape) :
  output_types dataset = Ok types ->
  output_shapes dataset = Ok shapes ->
  nest.same_structure types shapes = true ->
  exists it,
    Iterator_from_structure types None shared_name = Ok it
    ∧ initializer it = Raise ValueError
    ∧ (make_initializer it dataset).1
      = Ok (gen_dataset_ops.make_iterator dataset (_iterator_resource it)).
Proof.
  intros Ht Hs Hss. unfold Iterator_from_structure. cbn [declared_shapes].
  cbn [mbind result_bind]. unfold nest.assert_same_structure.
  rewrite nest_facts.same_structure_map. cbn [mbind result_bind]. eexists.
  split_and!; [reflexivity | reflexivity |].
  erewrite make_initializer_accepts; [reflexivity | exact Ht | exact Hs |].
  cbn [_output_types _output_shapes]. unfold schema_compatible.
  assert (Hmap : nest.same_structure
            (nest.map_structure (fun _ : DType => tensor_shape.unknown_shape) types)
            shapes = true).
  { eapply nest_facts.same_structure_trans; [| exact Hss].
    apply nest_facts.same_structure_sym, nest_facts.same_structure_map. }
  split_and!.
  - apply nest_facts.same_structure_refl.
  - exact Hmap.
  - by apply list_eq_Forall2.
  - rewrite nest_facts.flatten_map_structure. apply Forall2_fmap_l.
    apply Forall2_true; [done |].
    rewrite <- (nest_facts.same_structure_flatten_length _ _ Hmap).
    by rewrite nest_facts.flatten_map_structure, length_fmap.
Qed.

Lemma from_structure_unconstrained_witness :
  output_types example.ten = Ok (Leaf dtypes.int64)
  ∧ output_shapes example.ten = Ok (Leaf tensor_shape.scalar)
  ∧ nest.same_structure (Leaf dtypes.int64) (Leaf tensor_shape.scalar) = true
  ∧ exists it,
      Iterator_from_structure (Leaf dtypes.int64) None None = Ok it
      ∧ initializer it = Raise ValueError.
Proof.
  split_and!; [reflexivity | reflexivity | reflexivity |].
  destruct (from_structure_unconstrained (Leaf dtypes.int64) None example.ten
              (Leaf tensor_shape.scalar) eq_refl eq_refl eq_refl)
    as (it & Hit & Hinit & _).
  exists it. split; [exact Hit | exact Hinit].
Defined.

(** X9.  Whatever [make_initializer] raises on a dataset whose schema can
    be read is a [StructureMismatch] of [nest] or a [TypeError]; when the
    structures agree it is a [TypeError], for a shape that is not
    compatible as for a dtype that differs.  It never raises
    [ValueError]. *)
Theorem make_initializer_raises_TypeError (self : Iterator) (dataset : Dataset)
    (dataset_types : nest.t DType) (dataset_shapes : nest.t TensorShape) (e : exn) :
  output_types dataset = Ok dataset_types ->
  output_shapes dataset = Ok dataset_shapes ->
  (make_initializer self dataset).1 = Raise e ->
  (e = StructureMismatch ∨ e = TypeError)
  ∧ (nest.same_structure (_output_types self) dataset_types = true ->
     nest.same_structure (_output_shapes self) dataset_shapes = true ->
     e = TypeError).
Proof.
  intros Ht Hs. unfold make_initializer. cbn [fst].
  rewrite Ht. cbn [mbind result_bind]. unfold nest.assert_same_structure.
  destruct (nest.same_structure (_output_types self) dataset_types);
    cbn [mbind result_bind]; [| intros [= <-]; split; [by left | done]].
  rewrite Hs. cbn [mbind result_bind].
  destruct (nest.same_structure (_output_shapes self) dataset_shapes);
    cbn [mbind result_bind]; [| intros [= <-]; split; [by left | done]].
  match goal with
  | |- context [for_each ?l ?body ≫= _] =>
      destruct (for_each_result l body) as [-> | ([x y] & e1 & _ & Hx & ->)]
  end; cbn [mbind result_bind].
  - match goal with
    | |- context [for_each ?l ?body ≫= _] =>
        destruct (for_each_result l body) as [-> | ([x y] & e1 & _ & Hx & ->)]
    end; cbn [mbind result_bind]; [done |].
    intros [= <-].
    destruct (negb _); [| done]. injection Hx as <-. split; [by right | done].
  - intros [= <-].
    destruct (bool_decide _); [| done]. injection Hx as <-.
    split; [by right | done].
Qed.

Lemma make_initializer_raises_TypeError_witness :
  output_types example.floats = Ok (Leaf dtypes.float32)
  ∧ output_shapes example.floats = Ok (Leaf tensor_shape.scalar)
  ∧ (make_initializer example.scalar_ints example.floats).1 = Raise TypeError
  ∧ (TypeError = StructureMismatch ∨ TypeError = TypeError).
Proof.
  split_and!; [reflexivity | reflexivity | reflexivity |].
  apply (make_initializer_raises_TypeError example.scalar_ints example.floats
           (Leaf dtypes.float32) (Leaf tensor_shape.scalar) TypeError
           eq_refl eq_refl eq_refl).
Defined.

Lemma fmap_dtype_zip_with (ts : list DType) (ss : list TensorShape) :
  length ts = length ss -> dtype <$> zip_with mkTensor ts ss = ts.
Proof.
  revert ss. induction ts as [|t ts IH]; intros [|s ss] Hl; simplify_eq/=;
    [done |]. f_equal. by apply IH.
Qed.

Lemma fmap_shape_zip_with (ts : list DType) (ss : list TensorShape) :
  length ts = length ss -> shape <$> zip_with mkTensor ts ss = ss.
Proof.
  revert ss. induction ts as [|t ts IH]; intros [|s ss] Hl; simplify_eq/=;
    [done |]. f_equal. by apply IH.
Qed.

Lemma pack_zip_with_mkTensor (types : nest.t DType) (shapes : nest.t TensorShape) :
  nest.same_structure types shapes = true ->
  exists packed,
    nest.pack_sequence_as types
      (zip_with mkTensor (nest.flatten types) (nest.flatten shapes)) = Ok packed
    ∧ nest.flatten packed
      = zip_with mkTensor (nest.flatten types) (nest.flatten shapes)
    ∧ nest.same_structure types packed = true
    ∧ nest.map_structure dtype packed = types
    ∧ nest.map_structure shape packed = shapes.
Proof.
  intros Hss.
  pose proof (nest_facts.same_structure_flatten_length _ _ Hss) as Hlen.
  destruct (nest_facts.pack_sequence_as_ok types
    (zip_with mkTensor (nest.flatten types) (nest.flatten shapes)))
    as (packed & Hp & Hf & Hs).
  { rewrite length_zip_with. lia. }
  exists packed. split_and!; [done | done | done | |].
  - apply (nest_facts.same_structure_flatten_inj types).
    + eapply nest_facts.same_structure_trans; [exact Hs |].
      apply nest_facts.same_structure_map.
    + apply nest_facts.same_structure_refl.
    + rewrite nest_facts.flatten_map_structure, Hf.
      by apply fmap_dtype_zip_with.
  - apply (nest_facts.same_structure_flatten_inj types).
    + eapply nest_facts.same_structure_trans; [exact Hs |].
      apply nest_facts.same_structure_map.
    + exact Hss.
    + rewrite nest_facts.flatten_map_structure, Hf.
      by apply fmap_shape_zip_with.
Qed.

(** X10.  [get_next] of an iterator that [Iterator.from_structure] has
    built never raises: it returns tensors in the structure of the declared
    types, each of its declared dtype and declared shape (of unknown shape
    when no shapes were declared). *)
Theorem get_next_from_structure (types : nest.t DType)
    (shapes : option (nest.t TensorShape))
    (shared_name : option String.string) (it : Iterator) :
  Iterator_from_structure types shapes shared_name = Ok it ->
  exists element,
    get_next it = Ok element
    ∧ nest.same_structure types element = true
    ∧ nest.map_structure dtype element = types
    ∧ nest.map_structure shape element = _output_shapes it.
Proof.
  unfold Iterator_from_structure.
  destruct (declared_shapes types shapes) as [declared|] eqn:Hd;
    cbn [mbind result_bind]; [| done].
  unfold nest.assert_same_structure.
  destruct (nest.same_structure types declared) eqn:Hss;
    cbn [mbind result_bind]; [| done].
  intros [= <-]. unfold get_next, iterator_get_next.
  cbn [_output_types _output_shapes].
  destruct (pack_zip_with_mkTensor types declared Hss)
    as (packed & Hp & _ & Hs & Hdt & Hsh).
  exists packed. by split_and!.
Qed.

Lemma get_next_from_structure_witness :
  Iterator_from_structure (Leaf dtypes.int64) (Some (Leaf tensor_shape.scalar)) None
  = Ok example.scalar_ints
  ∧ exists element,
      get_next example.scalar_ints = Ok element
      ∧ nest.map_structure dtype element = Leaf dtypes.int64.
Proof.
  split; [reflexivity |].
  destruct (get_next_from_structure (Leaf dtypes.int64)
              (Some (Leaf tensor_shape.scalar)) None example.scalar_ints eq_refl)
    as (element & Hget & _ & Hdt & _).
  exists element. split; [exact Hget | exact Hdt].
Defined.

(** ** Dataset.map *)


Lemma set_shapes_placeholders (ts : list DType) (ss : list TensorShape) :
  length ts = length ss ->
  set_shapes ((fun t => {| dtype := t; shape := tensor_shape.unknown_shape |}) <$> ts)
             ss
  = Ok (zip_with mkTensor ts ss).
Proof.
  revert ss. induction ts as [|t ts IH]; intros [|s ss] Hl; simplify_eq/=;
    [done |].
  rewrite IH by done. done.
Qed.

Lemma Defun_tf_map_func (types : nest.t DType) (shapes : nest.t TensorShape)
    (map_func : py_function) :
  nest.same_structure types shapes = true ->
  exists nested_args,
    Defun (nest.flatten types) (tf_map_func types shapes map_func)
    = call_unpacked (trace map_func) nested_args
    ∧ nest.map_structure dtype nested_args = types
    ∧ nest.map_structure shape nested_args = shapes.
Proof.
  intros Hss. unfold Defun, tf_map_func.
  rewrite set_shapes_placeholders
    by (by apply nest_facts.same_structure_flatten_length).
  cbn [mbind result_bind].
  destruct (pack_zip_with_mkTensor types shapes Hss)
    as (packed & Hp & _ & _ & Hdt & Hsh).
  rewrite Hp. cbn [mbind result_bind]. by exists packed.
Qed.

(** X12.  For an input whose types and shapes have one structure, the
    traced call of [tf_map_func] never fails before it reaches the user's
    function, and gives that function arguments in the structure of the
    input, each with the dtype and the static shape of its component, a
    tuple being spread over the positional arguments. *)
Theorem tf_map_func_passes_schema (types : nest.t DType)
    (shapes : nest.t TensorShape) (map_func : py_function) :
  nest.same_structure types shapes = true ->
  exists nested_args,
    Defun (nest.flatten types) (tf_map_func types shapes map_func)
    = (if _should_unpack_args nested_args
       then match nested_args with
            | Node _ children => trace map_func children
            | Leaf _ => trace map_func [nested_args]
            end
       else trace map_func [nested_args])
    ∧ nest.map_structure dtype nested_args = types
    ∧ nest.map_structure shape nested_args = shapes.
Proof.
  intros Hss.
  destruct (Defun_tf_map_func types shapes map_func Hss)
    as (nested_args & Hcall & Hdt & Hsh).
  exists nested_args. split_and!; [| done | done].
  rewrite Hcall. by destruct nested_args as [x|[|keys] children].
Qed.

Lemma tf_map_func_passes_schema_witness :
  nest.same_structure (Leaf dtypes.int64) (Leaf tensor_shape.scalar) = true
  ∧ exists nested_args,
      nest.map_structure dtype nested_args = Leaf dtypes.int64
      ∧ nest.map_structure shape nested_args = Leaf tensor_shape.scalar.
Proof.
  split; [reflexivity |].
  destruct (tf_map_func_passes_schema (Leaf dtypes.int64)
              (Leaf tensor_shape.scalar)
              {| trace := second_of_two; call := second_of_two |} eq_refl)
    as (nested_args & _ & Hdt & Hsh).
  exists nested_args. split; [exact Hdt | exact Hsh].
Defined.

(** ** Dataset.shard *)

Lemma map_structure_pair {A B} (f : A -> B) (s : nest.t A) (x y : nest.t B) :
  nest.map_structure f s = Node CTuple [x; y] ->
  exists x' y', s = Node CTuple [x'; y']
                ∧ nest.map_structure f x' = x ∧ nest.map_structure f y' = y.
Proof.
  destruct s as [a|c [|x' [|y' [|z' r]]]]; simpl; try done.
  intros [= -> <- <-]. by exists x', y'.
Qed.

(** X13.  A shard of a dataset whose types and shapes have one structure
    has the output types and the output shapes of the dataset: the
    position that [shard] adds to select the elements does not show in the
    schema. *)
Theorem Dataset_shard_keeps_schema (self : Dataset) (num_shards index : scalar_arg)
    (types : nest.t DType) (shapes : nest.t TensorShape) (sharded : Dataset) :
  output_types self = Ok types ->
  output_shapes self = Ok shapes ->
  nest.same_structure types shapes = true ->
  Dataset_shard self num_shards index = Ok sharded ->
  output_types sharded = Ok types ∧ output_shapes sharded = Ok shapes.
Proof.
  intros Ht Hs Hss Hsharded.
  destruct (Dataset_shard_result self num_shards index) as [H|H];
    rewrite H in Hsharded; [done |]. injection Hsharded as <-.
  assert (Hzt : output_types
            (FilterDataset
               (ZipDataset
                  (Node CTuple
                     [Leaf (RangeDataset (Static 0) (Static max_value) (Static 1));
                      Leaf self]))
               (filter_fn num_shards index))
          = Ok (Node CTuple [Leaf dtypes.int64; types])).
  { cbn [output_types nest.mapM mbind result_bind]. rewrite Ht. done. }
  assert (Hzs : output_shapes
            (FilterDataset
               (ZipDataset
                  (Node CTuple
                     [Leaf (RangeDataset (Static 0) (Static max_value) (Static 1));
                      Leaf self]))
               (filter_fn num_shards index))
          = Ok (Node CTuple [Leaf tensor_shape.scalar; shapes])).
  { cbn [output_shapes nest.mapM mbind result_bind]. rewrite Hs. done. }
  assert (Hzz : nest.same_structure (Node CTuple [Leaf dtypes.int64; types])
                  (Node CTuple [Leaf tensor_shape.scalar; shapes]) = true).
  { cbn. by rewrite Hss. }
  destruct (Defun_tf_map_func _ _
              {| trace := second_of_two; call := second_of_two |} Hzz)
    as (nested_args & Hcall & Hdt & Hsh).
  apply map_structure_pair in Hdt as (x & y & -> & _ & Hy).
  cbn [nest.map_structure List.map] in Hsh. injection Hsh as _ Hy'.
  cbn [call_unpacked trace second_of_two] in Hcall.
  split.
  - change (output_types (MapDataset ?d ?f))
      with (input_types ← output_types d;
            input_shapes ← output_shapes d;
            ret ← Defun (nest.flatten input_types)
                        (tf_map_func input_types input_shapes f);
            nest.pack_sequence_as ret (dtype <$> nest.flatten ret)).
    rewrite Hzt. cbn [mbind result_bind]. rewrite Hzs. cbn [mbind result_bind].
    rewrite Hcall. cbn [mbind result_bind].
    by rewrite nest_facts.pack_sequence_as_map, Hy.
  - change (output_shapes (MapDataset ?d ?f))
      with (input_types ← output_types d;
            input_shapes ← output_shapes d;
            ret ← Defun (nest.flatten input_types)
                        (tf_map_func input_types input_shapes f);
            nest.pack_sequence_as ret (shape <$> nest.flatten ret)).
    rewrite Hzt. cbn [mbind result_bind]. rewrite Hzs. cbn [mbind result_bind].
    rewrite Hcall. cbn [mbind result_bind].
    by rewrite nest_facts.pack_sequence_as_map, Hy'.
Qed.

Lemma Dataset_shard_keeps_schema_witness :
  output_types example.letters = Ok (Leaf dtypes.string)
  ∧ output_shapes example.letters = Ok (Leaf tensor_shape.scalar)
  ∧ nest.same_structure (Leaf dtypes.string) (Leaf tensor_shape.scalar) = true
  ∧ exists sharded,
      Dataset_shard example.letters (Static 3) (Static 1) = Ok sharded
      ∧ output_types sharded = Ok (Leaf dtypes.string)
      ∧ output_shapes sharded = Ok (Leaf tensor_shape.scalar).
Proof.
  split_and!; [reflexivity | reflexivity | reflexivity |].
  eexists. split; [reflexivity |].
  apply (Dataset_shard_keeps_schema example.letters (Static 3) (Static 1)
           (Leaf dtypes.string) (Leaf tensor_shape.scalar) _
           eq_refl eq_refl eq_refl eq_refl).
Defined.

Lemma Dataset_shard_elements (self : Dataset) (num_shards index : scalar_arg)
    (xs : list element) :
  elements self = Ok xs ->
  Z.of_nat (length xs) <= max_value ->
  1 <= run_value num_shards ->
  0 <= run_value index < run_value num_shards ->
  exists sharded,
    Dataset_shard self num_shards index = Ok sharded
    ∧ elements sharded
      = Ok (shard_spec (run_value num_shards) (run_value index) xs).
Proof.
  intros Hxs Hlen Hns Hidx. eexists. split; [by apply Dataset_shard_valid |].
  change (elements (Dataset_map (Dataset_filter ?d ?f) ?m None None None))
    with ((elements d ≫= kernels.filter_elements f)
          ≫= kernels.map_elements (call m)).
  cbn [elements Dataset_zip nest.mapM run_value mbind result_bind].
  rewrite bool_decide_false by done. rewrite Hxs.
  cbn [mbind result_bind]. rewrite zip_elements_enumerate by done.
  rewrite filter_elements_enumerated by lia. cbn [mbind result_bind call].
  by rewrite map_elements_project.
Qed.

Lemma shard_distance_zero (n idx pos : Z) :
  0 < n -> 0 <= idx < n ->
  Z.modulo pos n = idx <-> Z.modulo (idx - pos) n = 0.
Proof.
  intros Hn Hidx. split; intros H.
  - rewrite <- Zminus_mod_idemp_r, H, Z.sub_diag. by apply Z.mod_0_l, Z.neq_sym, Z.lt_neq.
  - replace pos with (idx - (idx - pos)) by lia.
    rewrite <- Zminus_mod_idemp_r, H, Z.sub_0_r. by apply Z.mod_small.
Qed.

Lemma shard_distance_next (n idx pos : Z) :
  0 < n ->
  Z.modulo (idx - (pos + 1)) n
  = if bool_decide (Z.modulo (idx - pos) n = 0) then n - 1
    else Z.modulo (idx - pos) n - 1.
Proof.
  intros Hn. replace (idx - (pos + 1)) with (idx - pos - 1) by lia.
  rewrite <- Zminus_mod_idemp_l.
  pose proof (Z.mod_pos_bound (idx - pos) n Hn) as Hb.
  case_bool_decide as Hr.
  - rewrite Hr. replace (0 - 1) with (n - 1 + (-1) * n) by lia.
    rewrite Z_mod_plus_full. apply Z.mod_small. lia.
  - apply Z.mod_small. lia.
Qed.

(** The elements that a shard keeps, counted from any first position. *)
Lemma kept_positions_lookup (n idx : Z) (xs : list element) (pos : Z) (k : nat) :
  0 < n -> 0 <= idx < n ->
  (snd <$> filter (fun p : Z * element => Z.modulo p.1 n = idx)
             (imap (fun i x => (pos + Z.of_nat i, x)) xs)) !! k
  = xs !! (Z.to_nat (Z.modulo (idx - pos) n) + k * Z.to_nat n)%nat.
Proof.
  intros Hn Hidx. revert pos k. induction xs as [|x xs IH]; intros pos k.
  - by rewrite !lookup_nil.
  - cbn [imap]. rewrite filter_cons. cbn [fst].
    replace (imap ((fun i x0 => (pos + Z.of_nat i, x0)) ∘ S) xs)
      with (imap (fun i x0 => (pos + 1 + Z.of_nat i, x0)) xs)
      by (apply imap_ext; intros i y _; cbn; f_equal; lia).
    pose proof (shard_distance_zero n idx pos Hn Hidx) as Hzero.
    pose proof (shard_distance_next n idx pos Hn) as Hnext.
    pose proof (Z.mod_pos_bound (idx - pos) n Hn) as Hb.
    replace (pos + Z.of_nat 0) with pos by lia.
    destruct (decide (Z.modulo pos n = idx)) as [Hkeep|Hskip].
    + apply Hzero in Hkeep as Hr. rewrite bool_decide_true in Hnext by done.
      rewrite Hr. destruct k as [|k]; [done |].
      rewrite fmap_cons. cbn [lookup list_lookup]. rewrite IH, Hnext.
      replace (Z.to_nat 0 + S k * Z.to_nat n)%nat
        with (S (Z.to_nat (n - 1) + k * Z.to_nat n))%nat by lia.
      done.
    + assert (Hr : Z.modulo (idx - pos) n ≠ 0) by (intros ?; by apply Hskip, Hzero).
      rewrite bool_decide_false in Hnext by done.
      rewrite IH, Hnext.
      replace (Z.to_nat ((idx - pos) `mod` n) + k * Z.to_nat n)%nat
        with (S (Z.to_nat ((idx - pos) `mod` n - 1) + k * Z.to_nat n))%nat by lia.
      done.
Qed.

Lemma shard_spec_lookup (n idx : Z) (xs : list element) (k : nat) :
  0 < n -> 0 <= idx < n ->
  shard_spec n idx xs !! k = xs !! (Z.to_nat idx + k * Z.to_nat n)%nat.
Proof.
  intros Hn Hidx. unfold shard_spec.
  pose proof (kept_positions_lookup n idx xs 0 k Hn Hidx) as H.
  rewrite Z.sub_0_r, Z.mod_small in H by lia.
  rewrite <- H. do 3 f_equal.
Qed.

(** X14.  For a dataset that yields [xs], not more than the positions of
    an int64 range, and a valid pair [num_shards >= 1], [0 <= index <
    num_shards]: the [k]-th element of the shard is the element of [xs] at
    position [index + k * num_shards], and the shard ends where [xs] does.
    With one shard, the shard yields [xs] itself. *)
Theorem Dataset_shard_kth_element (self : Dataset) (num_shards index : scalar_arg)
    (xs : list element) :
  elements self = Ok xs ->
  Z.of_nat (length xs) <= max_value ->
  1 <= run_value num_shards ->
  0 <= run_value index < run_value num_shards ->
  exists sharded ys,
    Dataset_shard self num_shards index = Ok sharded
    ∧ elements sharded = Ok ys
    ∧ (forall k : nat,
         ys !! k = xs !! (Z.to_nat (run_value index)
                          + k * Z.to_nat (run_value num_shards))%nat)
    ∧ (run_value num_shards = 1 -> ys = xs).
Proof.
  intros Hxs Hlen Hns Hidx.
  destruct (Dataset_shard_elements self num_shards index xs Hxs Hlen Hns Hidx)
    as (sharded & Hs & He).
  exists sharded, (shard_spec (run_value num_shards) (run_value index) xs).
  split_and!; [done | done | |].
  - intros k. apply shard_spec_lookup; lia.
  - intros Hone. apply list_eq. intros k.
    rewrite shard_spec_lookup by lia. f_equal. rewrite Hone. lia.
Qed.

Lemma Dataset_shard_kth_element_witness :
  elements example.letters
  = Ok [Leaf (StrV "a"); Leaf (StrV "b"); Leaf (StrV "c");
        Leaf (StrV "d"); Leaf (StrV "e")]
  ∧ exists sharded ys,
      Dataset_shard example.letters (Static 2) (Static 1) = Ok sharded
      ∧ elements sharded = Ok ys
      ∧ ys !! 1%nat = Some (Leaf (StrV "d")).
Proof.
  split; [reflexivity |].
  destruct (Dataset_shard_kth_element example.letters (Static 2) (Static 1)
              [Leaf (StrV "a"); Leaf (StrV "b"); Leaf (StrV "c");
               Leaf (StrV "d"); Leaf (StrV "e")])
    as (sharded & ys & Hs & He & Hk & _);
    [reflexivity | vm_compute; discriminate | simpl; lia | simpl; lia |].
  exists sharded, ys. split_and!; [exact Hs | exact He |].
  rewrite (Hk 1%nat). reflexivity.
Defined.

(** ** Dataset._enumerate *)

Lemma zip_elements_enumerate_from (start : Z) (xs : list element) :
  kernels.zip_elements
    (Node CTuple
       [Leaf ((fun i => Leaf (IntV i)) <$> kernels.range_values start max_value 1);
        Leaf xs])
  = imap (fun i x => Node CTuple [Leaf (IntV (start + Z.of_nat i)); x])
         (take (Z.to_nat (max_value - start)) xs).
Proof.
  assert (Hlen : kernels.range_length start max_value 1
                 = Z.max 0 (max_value - start)).
  { unfold kernels.range_length. rewrite bool_decide_true by lia.
    rewrite Z.div_1_r. f_equal. lia. }
  assert (Hpos : forall i : nat, (i < Z.to_nat (max_value - start))%nat ->
            ((fun i => Leaf (IntV i) : element)
               <$> kernels.range_values start max_value 1) !! i
            = Some (Leaf (IntV (start + Z.of_nat i)))).
  { intros i Hi. unfold kernels.range_values.
    rewrite !list_lookup_fmap, lookup_seqZ_lt by lia.
    cbn [fmap option_fmap option_map]. do 3 f_equal. lia. }
  assert (Hrs : length ((fun i => Leaf (IntV i) : element)
                          <$> kernels.range_values start max_value 1)
                = Z.to_nat (max_value - start)).
  { unfold kernels.range_values. rewrite !length_fmap, length_seqZ. lia. }
  remember ((fun i => Leaf (IntV i) : element)
              <$> kernels.range_values start max_value 1) as rs eqn:E.
  clear E. unfold kernels.zip_elements.
  cbn [nest.flatten List.map concat app kernels.min_length foldr].
  rewrite Hrs. apply list_eq. intros i.
  rewrite list_lookup_fmap, list_lookup_imap, lookup_take.
  destruct (decide (i < Z.to_nat (max_value - start))%nat) as [Hi|Hi].
  - destruct (xs !! i) as [x|] eqn:Hx.
    + pose proof (lookup_lt_Some _ _ _ Hx) as Hi'.
      rewrite lookup_seq_lt by lia.
      cbn [fmap option_fmap option_map nest.map_structure List.map nest.join plus].
      rewrite Hpos by lia. rewrite Hx. done.
    + apply lookup_ge_None in Hx. by rewrite lookup_seq_ge by lia.
  - by rewrite lookup_seq_ge by lia.
Qed.

(** X15.  [_enumerate(start)] pairs the elements of the dataset with the
    positions [start], [start + 1], ... and stops with the range of
    positions, which ends before the largest int64: of a dataset that
    yields [xs] it yields the first [max_value - start] elements only, and
    none when [start] is not below that bound. *)
Theorem enumerate_from_start (self : Dataset) (start : Z) (xs : list element) :
  elements self = Ok xs ->
  exists enumerated,
    _enumerate self start = Ok enumerated
    ∧ elements enumerated
      = Ok (imap (fun i x => Node CTuple [Leaf (IntV (start + Z.of_nat i)); x])
                 (take (Z.to_nat (max_value - start)) xs))
    ∧ (max_value <= start -> elements enumerated = Ok []).
Proof.
  intros Hxs. eexists. split; [reflexivity |].
  assert (He : elements
            (Dataset_zip
               (Node CTuple
                  [Leaf (RangeDataset (Static start) (Static max_value)
                           (_build_tensor 1));
                   Leaf self]))
          = Ok (imap (fun i x => Node CTuple [Leaf (IntV (start + Z.of_nat i)); x])
                     (take (Z.to_nat (max_value - start)) xs))).
  { cbn [elements Dataset_zip nest.mapM run_value _build_tensor
         mbind result_bind].
    rewrite bool_decide_false by done. rewrite Hxs.
    cbn [mbind result_bind]. by rewrite zip_elements_enumerate_from. }
  split; [exact He |].
  intros Hstart. rewrite He.
  replace (Z.to_nat (max_value - start)) with 0%nat by lia. done.
Qed.

Lemma enumerate_from_start_witness :
  elements example.letters
  = Ok [Leaf (StrV "a"); Leaf (StrV "b"); Leaf (StrV "c");
        Leaf (StrV "d"); Leaf (StrV "e")]
  ∧ exists enumerated,
      _enumerate example.letters max_value = Ok enumerated
      ∧ elements enumerated = Ok [].
Proof.
  split; [reflexivity |].
  destruct (enumerate_from_start example.letters max_value
              [Leaf (StrV "a"); Leaf (StrV "b"); Leaf (StrV "c");
               Leaf (StrV "d"); Leaf (StrV "e")] eq_refl)
    as (enumerated & He & _ & Hnone).
  exists enumerated. split; [exact He |]. apply Hnone. lia.
Defined.

(** ** ZipDataset *)

Lemma sequence_app {A} (l1 l2 : list (result A)) :
  sequence (l1 ++ l2)
  = (xs ← sequence l1; ys ← sequence l2; Ok (xs ++ ys)).
Proof.
  induction l1 as [|r l1 IH]; cbn [app sequence mbind result_bind].
  - by destruct (sequence l2).
  - destruct r as [x|e]; cbn [mbind result_bind]; [| done].
    rewrite IH. destruct (sequence l1) as [xs|e]; cbn [mbind result_bind];
      [| done].
    by destruct (sequence l2).
Qed.

(** Reading a property of every dataset of a structure, in [flatten]
    order, and flattening what was read. *)
Lemma mapM_join_flatten {A B} (f : A -> result (nest.t B)) (s : nest.t A) :
  (packed ← nest.mapM f s; Ok (nest.flatten (nest.join packed)))
  = (per_leaf ← sequence (f <$> nest.flatten s);
     Ok (concat (nest.flatten <$> per_leaf))).
Proof.
  induction s as [a|c ch IH] using nest.t_ind'.
  - cbn [nest.mapM nest.flatten fmap list_fmap sequence mbind result_bind].
    destruct (f a) as [b|e]; cbn [mbind result_bind nest.join]; [| done].
    cbn. by rewrite app_nil_r.
  - cbn [nest.mapM nest.flatten].
    enough (Hlist :
      ((fix gol (l : list (nest.t A)) : result (list (nest.t (nest.t B))) :=
          match l with
          | [] => Ok []
          | x :: r => y ← nest.mapM f x; ys ← gol r; Ok (y :: ys)
          end) ch
       ≫= fun ch' => Ok (concat (List.map nest.flatten (List.map nest.join ch'))))
      = (per_leaf ← sequence (f <$> concat (List.map nest.flatten ch));
         Ok (concat (nest.flatten <$> per_leaf)))).
    { rewrite <- Hlist.
      match goal with
      | |- context [mbind _ ?r ≫= _] => destruct r as [ch'|e]
      end; cbn [mbind result_bind]; done. }
    induction IH as [|x rest Hx _ IHr]; [done |].
    cbn [List.map concat]. rewrite fmap_app, sequence_app.
    destruct (nest.mapM f x) as [y|e] eqn:Hy;
      destruct (sequence (f <$> nest.flatten x)) as [ts|e'] eqn:Hts;
      cbn [mbind result_bind] in Hx |- *; try done.
    injection Hx as Hx.
    destruct (sequence (f <$> concat (List.map nest.flatten rest)))
      as [ts2|e2];
      match type of IHr with
      | (?L ≫= _) = _ => destruct L as [ch'|e1]
      end; cbn [mbind result_bind] in IHr |- *; try done.
    injection IHr as IHr.
    cbn [List.map concat]. by rewrite fmap_app, concat_app, Hx, IHr.
Qed.

(** X16.  The flat [output_types] and [output_shapes] that a [ZipDataset]
    gives to its kernel are the flattened [output_types] and
    [output_shapes] properties of the dataset, whatever the nesting of the
    zipped datasets; the two readings also raise the same exception when a
    zipped dataset has no readable schema. *)
Theorem ZipDataset_flat_schema (datasets : nest.t Dataset) :
  ZipDataset_flat_output_types datasets
  = (types ← output_types (ZipDataset datasets); Ok (nest.flatten types))
  ∧ ZipDataset_flat_output_shapes datasets
    = (shapes ← output_shapes (ZipDataset datasets); Ok (nest.flatten shapes)).
Proof.
  unfold ZipDataset_flat_output_types, ZipDataset_flat_output_shapes.
  split.
  - rewrite <- mapM_join_flatten. cbn [output_types].
    by destruct (nest.mapM output_types datasets).
  - rewrite <- mapM_join_flatten. cbn [output_shapes].
    by destruct (nest.mapM output_shapes datasets).
Qed.

(** ** ConcatenateDataset *)

Lemma ConcatenateDataset_init_result (a b : Dataset) (ta tb : nest.t DType) :
  output_types a = Ok ta -> output_types b = Ok tb ->
  (nest.same_structure ta tb = true ∧ nest.flatten ta = nest.flatten tb
   ∧ Dataset_concatenate a b = Ok (ConcatenateDataset a b))
  ∨ (¬ (nest.same_structure ta tb = true ∧ nest.flatten ta = nest.flatten tb)
     ∧ raises (Dataset_concatenate a b)).
Proof.
  intros Hta Htb. unfold Dataset_concatenate, ConcatenateDataset_init.
  rewrite Hta, Htb. cbn [mbind result_bind]. unfold nest.assert_same_structure.
  destruct (nest.same_structure ta tb) eqn:Hss; cbn [mbind result_bind].
  - pose proof (dtype_loop_Ok _ _
      (nest_facts.same_structure_flatten_length _ _ Hss)) as Hloop.
    rewrite <- list_eq_Forall2 in Hloop.
    destruct (for_each (zip (nest.flatten ta) (nest.flatten tb)) _)
      as [[]|e] eqn:Hfe; cbn [mbind result_bind].
    + left. split_and!; [done | by apply Hloop | done].
    + right. split; [| by eexists]. intros [_ Heq]. apply Hloop in Heq.
      congruence.
  - right. split; [| by eexists]. by intros [? _].
Qed.

(** X17.  Two datasets whose types can be read concatenate only when they
    have the very same output types: when [a.concatenate(b)] returns a
    dataset, the output types of [b] are those of [a], and [b.concatenate(a)]
    is accepted as well.  The check is symmetric: one order raises exactly
    when the other does. *)
Theorem Dataset_concatenate_same_types (a b : Dataset) (ta tb : nest.t DType) :
  output_types a = Ok ta -> output_types b = Ok tb ->
  (forall c, Dataset_concatenate a b = Ok c ->
     ta = tb ∧ c = ConcatenateDataset a b
     ∧ Dataset_concatenate b a = Ok (ConcatenateDataset b a))
  ∧ (raises (Dataset_concatenate a b) <-> raises (Dataset_concatenate b a)).
Proof.
  intros Hta Htb.
  destruct (ConcatenateDataset_init_result a b ta tb Hta Htb)
    as [(Hss & Hfl & Hab) | (Hno & Hab)];
    destruct (ConcatenateDataset_init_result b a tb ta Htb Hta)
      as [(Hss' & Hfl' & Hba) | (Hno' & Hba)].
  - split.
    + intros c Hc. rewrite Hab in Hc. injection Hc as <-.
      split_and!; [| done | done].
      apply (nest_facts.same_structure_flatten_inj ta);
        [apply nest_facts.same_structure_refl | done | done].
    + rewrite Hab, Hba. split; by intros [e [=]].
  - exfalso. apply Hno'. split; [by apply nest_facts.same_structure_sym | done].
  - exfalso. apply Hno. split; [by apply nest_facts.same_structure_sym | done].
  - split; [| done].
    intros c Hc. destruct Hab as [e He]. congruence.
Qed.

Lemma Dataset_concatenate_same_types_witness :
  output_types example.ten = Ok (Leaf dtypes.int64)
  ∧ output_types example.floats = Ok (Leaf dtypes.float32)
  ∧ (raises (Dataset_concatenate example.ten example.floats)
     <-> raises (Dataset_concatenate example.floats example.ten)).
Proof.
  split_and!; [reflexivity | reflexivity |].
  apply (Dataset_concatenate_same_types example.ten example.floats
           (Leaf dtypes.int64) (Leaf dtypes.float32) eq_refl eq_refl).
Defined.

(** ** PaddedBatchDataset *)

(** X18.  [_padding_value_to_tensor] checks the shape of the converted
    padding value before its type: a value that is not a scalar raises
    [ValueError], also when its dtype is not the expected one; a scalar of
    another dtype raises [TypeError]; and a scalar of the expected dtype is
    returned as converted. *)
Theorem padding_value_shape_before_type {PyObj : Type}
    (convert_padding_value : PyObj -> result Tensor)
    (value : PyObj) (output_type : DType) (t : Tensor) :
  convert_padding_value value = Ok t ->
  (tensor_shape.is_compatible_with (shape t) tensor_shape.scalar = false ->
   _padding_value_to_tensor convert_padding_value value output_type
   = Raise ValueError)
  ∧ (tensor_shape.is_compatible_with (shape t) tensor_shape.scalar = true ->
     dtype t ≠ output_type ->
     _padding_value_to_tensor convert_padding_value value output_type
     = Raise TypeError)
  ∧ (_padding_value_to_tensor convert_padding_value value output_type = Ok t
     <-> tensor_shape.is_compatible_with (shape t) tensor_shape.scalar = true
         ∧ dtype t = output_type).
Proof.
  intros Hconv. unfold _padding_value_to_tensor. rewrite Hconv.
  cbn [mbind result_bind].
  destruct (tensor_shape.is_compatible_with (shape t) tensor_shape.scalar);
    cbn [negb].
  - destruct (decide (dtype t = output_type)) as [Hd|Hd].
    + rewrite bool_decide_false by (intros ?; done). split_and!; try done.
    + rewrite bool_decide_true by done. split_and!; try done.
      split; [done |]. by intros [_ ?].
  - split_and!; try done. split; [done |]. by intros [? _].
Qed.

Lemma padding_value_shape_before_type_witness :
  example.convert_to_tensor
    {| dtype := dtypes.int64; shape := tensor_shape.vector None |} dtypes.bool
  = Ok {| dtype := dtypes.int64; shape := tensor_shape.vector None |}
  ∧ _padding_value_to_tensor
      (fun v => example.convert_to_tensor v dtypes.bool)
      {| dtype := dtypes.int64; shape := tensor_shape.vector None |}
      dtypes.float32
    = Raise ValueError.
Proof.
  split; [reflexivity |].
  apply (padding_value_shape_before_type
           (fun v => example.convert_to_tensor v dtypes.bool)
           {| dtype := dtypes.int64; shape := tensor_shape.vector None |}
           dtypes.float32
           {| dtype := dtypes.int64; shape := tensor_shape.vector None |}
           eq_refl).
  reflexivity.
Defined.

(** ** Dataset.shard with an index that is only known when the graph runs *)

Lemma Dataset_shard_elements_of (self : Dataset) (num_shards index : scalar_arg)
    (xs : list element) (sharded : Dataset) :
  Dataset_shard self num_shards index = Ok sharded ->
  elements self = Ok xs ->
  Z.of_nat (length xs) <= max_value ->
  run_value num_shards ≠ 0 ->
  elements sharded
  = Ok (shard_spec (run_value num_shards) (run_value index) xs).
Proof.
  intros Hsharded Hxs Hlen Hns.
  destruct (Dataset_shard_result self num_shards index) as [H|H];
    rewrite H in Hsharded; [done |]. injection Hsharded as <-.
  change (elements (MapDataset (FilterDataset ?d ?f) ?m))
    with ((elements d ≫= kernels.filter_elements f)
          ≫= kernels.map_elements (call m)).
  cbn [elements nest.mapM run_value mbind result_bind].
  rewrite bool_decide_false by done. rewrite Hxs.
  cbn [mbind result_bind]. rewrite zip_elements_enumerate by done.
  rewrite filter_elements_enumerated by done. cbn [mbind result_bind call].
  by rewrite map_elements_project.
Qed.

Lemma filter_none {A} (P : A -> Prop) `{forall x, Decision (P x)} (l : list A) :
  Forall (fun x => ¬ P x) l -> filter P l = [].
Proof.
  induction 1 as [|x l Hx _ IH]; [done |].
  rewrite filter_cons. by rewrite decide_False.
Qed.

(** X19.  An index that is not statically known is not checked when the
    graph runs either: with [num_shards >= 1] and an index outside of
    [0 <= index < num_shards], [shard] constructs a dataset, and that
    dataset yields no element and raises nothing. *)
Theorem Dataset_shard_unchecked_index (self : Dataset)
    (num_shards index : scalar_arg) (xs : list element) :
  tensor_util.constant_value index = None ->
  1 <= run_value num_shards ->
  ¬ (0 <= run_value index < run_value num_shards) ->
  elements self = Ok xs ->
  Z.of_nat (length xs) <= max_value ->
  exists sharded,
    Dataset_shard self num_shards index = Ok sharded
    ∧ elements sharded = Ok [].
Proof.
  intros Hdyn Hns Hidx Hxs Hlen.
  destruct (Dataset_shard_result self num_shards index) as [H|H].
  - exfalso. assert (Hr : raises (Dataset_shard self num_shards index))
      by (by eexists).
    apply Dataset_shard_raises in Hr.
    destruct Hr as [(n & Hn & ?)|[(i & Hi & ?)|(n & i & Hn & Hi & ?)]];
      [| congruence | congruence].
    destruct num_shards; cbn [tensor_util.constant_value run_value] in *;
      simplify_eq. lia.
  - eexists. split; [exact H |].
    erewrite Dataset_shard_elements_of; [| exact H | exact Hxs | exact Hlen | lia].
    unfold shard_spec. rewrite filter_none; [done |].
    apply Forall_forall. intros [p x] _. cbn [fst]. intros Hp.
    pose proof (Z.mod_pos_bound p (run_value num_shards)). lia.
Qed.

Lemma Dataset_shard_unchecked_index_witness :
  tensor_util.constant_value (Dynamic 5) = None
  ∧ elements example.letters
    = Ok [Leaf (StrV "a"); Leaf (StrV "b"); Leaf (StrV "c");
          Leaf (StrV "d"); Leaf (StrV "e")]
  ∧ exists sharded,
      Dataset_shard example.letters (Static 3) (Dynamic 5) = Ok sharded
      ∧ elements sharded = Ok [].
Proof.
  split_and!; [reflexivity | reflexivity |].
  apply (Dataset_shard_unchecked_index example.letters (Static 3) (Dynamic 5)
           [Leaf (StrV "a"); Leaf (StrV "b"); Leaf (StrV "c");
            Leaf (StrV "d"); Leaf (StrV "e")]);
    [reflexivity | simpl; lia | simpl; lia | reflexivity
    | vm_compute; discriminate].
Defined.

(** ** The traced call of a FilterDataset *)

(** X20.  For an input whose types and shapes can be read and have one
    structure, the traced call that [FilterDataset.__init__] makes never
    fails before it reaches the user's predicate: the predicate is called
    on arguments in the structure of the input, each with the dtype and
    the static shape of its component, and what it returns, or raises, is
    what [tf_predicate] goes on with. *)
Theorem FilterDataset_trace_passes_schema {PyObj : Type}
    (convert_to_tensor : PyObj -> DType -> result Tensor)
    (input_dataset : Dataset) (predicate : list (nest.t Tensor) -> result PyObj)
    (types : nest.t DType) (shapes : nest.t TensorShape) :
  output_types input_dataset = Ok types ->
  output_shapes input_dataset = Ok shapes ->
  nest.same_structure types shapes = true ->
  exists nested_args,
    nest.map_structure dtype nested_args = types
    ∧ nest.map_structure shape nested_args = shapes
    ∧ Defun (nest.flatten types) (predicate_return input_dataset predicate)
      = call_unpacked predicate nested_args
    ∧ (forall e, call_unpacked predicate nested_args = Raise e ->
         FilterDataset_trace convert_to_tensor input_dataset predicate = Raise e).
Proof.
  intros Ht Hs Hss.
  destruct (pack_zip_with_mkTensor types shapes Hss)
    as (packed & Hp & _ & _ & Hdt & Hsh).
  assert (Hret : Defun (nest.flatten types)
                   (predicate_return input_dataset predicate)
                 = call_unpacked predicate packed).
  { unfold Defun, predicate_return. rewrite Hs. cbn [mbind result_bind].
    rewrite set_shapes_placeholders
      by (by apply nest_facts.same_structure_flatten_length).
    cbn [mbind result_bind]. rewrite Ht. cbn [mbind result_bind].
    rewrite Hp. done. }
  exists packed. split_and!; [done | done | done |].
  intros e He. unfold FilterDataset_trace. rewrite Ht. cbn [mbind result_bind].
  unfold Defun in *. unfold tf_predicate. rewrite Hret, He. done.
Qed.

Lemma FilterDataset_trace_passes_schema_witness :
  output_types example.ten = Ok (Leaf dtypes.int64)
  ∧ output_shapes example.ten = Ok (Leaf tensor_shape.scalar)
  ∧ nest.same_structure (Leaf dtypes.int64) (Leaf tensor_shape.scalar) = true
  ∧ exists nested_args,
      nest.map_structure dtype nested_args = Leaf dtypes.int64
      ∧ Defun [dtypes.int64] (predicate_return example.ten example.always)
        = call_unpacked example.always nested_args.
Proof.
  split_and!; [reflexivity | reflexivity | reflexivity |].
  destruct (FilterDataset_trace_passes_schema example.convert_to_tensor
              example.ten example.always
              (Leaf dtypes.int64) (Leaf tensor_shape.scalar)
              eq_refl eq_refl eq_refl)
    as (nested_args & Hdt & _ & Hcall & _).
  exists nested_args. split; [exact Hdt | exact Hcall].
Defined.
